(** * Burndown pipeline of [palette_burndown.py]

    A shallow embedding of the four functions of the script
    ([fetch_project_items], [process_items], [calculate_by_date],
    [generate_burndown_chart]) together with the properties the
    specification states about them.

    Conventions of the embedding.
    - Values decoded from a response are JSON values ([json]); a JSON object
      is an association list read by its first binding for a key.
    - Python exceptions are the [Raise] branch of the [result] monad; the
      exception carries the class and, for the exceptions the script raises
      itself, which [raise] statement it comes from.
    - Numbers are exact rationals ([Qc]): an [int] and a [float] of the same
      value are the same number, as they are for Python's [==]. This is what
      the script computes as long as the numbers are whole and below 2^53
      (counts, whole estimates and their sums); elsewhere binary64 rounds
      each operation, so the properties below either follow the script's
      operations one by one in its order, or use only that a rounded
      operation is monotone, or are stated for whole numbers. The ideal
      trajectory, which divides, is also given in binary64
      ([ideal_burndown_b64]). Overflow and the non-finite values of binary64
      are outside the model.
    - A [date] is its proleptic Gregorian ordinal, a [datetime] a date and
      the microseconds elapsed within it, as in Python's own arithmetic.
    - Of a [print] only the evaluation of its arguments is modelled, where
      that can raise; the plotting calls are not, and the chart function
      returns the three series it hands to them. *)

From Stdlib Require Import Ascii String QArith Qcanon PrimFloat Uint63.
From stdpp Require Import base option list strings numbers countable gmap fin_maps.

Open Scope string_scope.
Open Scope list_scope.

(** ** Exceptions and the error monad *)

(** Which [ValueError] is raised: the two [raise ValueError] statements of
    [fetch_project_items], [datetime.strptime] and [float]. *)
Inductive value_error :=
  | DataKeyMissing      (* "Unexpected response structure: 'data' key missing." *)
  | ProjectNotFound     (* "Project '...' not found in organization '...'." *)
  | TimeDataMismatch    (* strptime: time data does not match format *)
  | NotAFloat.          (* float(): could not convert string to float *)

Inductive exn :=
  | RuntimeError        (* raise RuntimeError("GraphQL query failed.") *)
  | ValueError (w : value_error)
  | AttributeError      (* .get on a value that is not a dict *)
  | TypeError           (* subscript, iteration, hashing or conversion of a wrong type *)
  | KeyError (k : string)
  | HTTPError           (* response.raise_for_status() *)
  | JSONDecodeError.    (* response.json() *)

(** The error names of the specification. *)
Definition ProtocolError : exn := RuntimeError.
Definition SchemaError : exn := ValueError DataKeyMissing.
Definition NotFoundError : exn := ValueError ProjectNotFound.
Definition FormatError : exn := ValueError TimeDataMismatch.

Inductive result (A : Type) :=
  | Ok (a : A)
  | Raise (e : exn).
Arguments Ok {A} a.
Arguments Raise {A} e.

Global Instance result_ret : MRet result := λ A a, Ok a.
Global Instance result_bind : MBind result := λ A B f m,
  match m with
  | Ok a => f a
  | Raise e => Raise e
  end.

(** ** JSON values as [json.loads] returns them *)

#[warnings="-register-all"]
Inductive json :=
  | JNull
  | JBool (b : bool)
  | JNum (q : Qc)
  | JStr (s : string)
  | JList (l : list json)
  | JDict (d : list (string * json)).

Definition dict_lookup (k : string) (d : list (string * json)) : option json :=
  snd <$> List.find (λ kv, bool_decide (fst kv = k)) d.

(** [bool(v)] *)
Definition truthy (v : json) : bool :=
  match v with
  | JNull => false
  | JBool b => b
  | JNum q => negb (bool_decide (q = 0%Qc))
  | JStr s => negb (bool_decide (s = ""))
  | JList l => negb (bool_decide (l = []))
  | JDict d => negb (bool_decide (d = []))
  end.

(** [a or b] *)
Definition py_or (a b : json) : json := if truthy a then a else b.

(** [v.get(k, dflt)]: only a dict has the method. *)
Definition py_get (v : json) (k : string) (dflt : json) : result json :=
  match v with
  | JDict d => Ok (default dflt (dict_lookup k d))
  | _ => Raise AttributeError
  end.

(** [v[k]] for a string [k]. *)
Definition py_getitem (v : json) (k : string) : result json :=
  match v with
  | JDict d =>
      match dict_lookup k d with
      | Some x => Ok x
      | None => Raise (KeyError k)
      end
  | _ => Raise TypeError
  end.

(** [v == s] for a string [s]. *)
Definition py_eq_str (v : json) (s : string) : bool :=
  match v with
  | JStr t => bool_decide (t = s)
  | _ => false
  end.

Definition chars (s : string) : list json :=
  (λ c, JStr (String c EmptyString)) <$> String.list_ascii_of_string s.

(** [iter(v)]: the elements of a list, the keys of a dict, the characters of
    a string. *)
Definition py_iter (v : json) : result (list json) :=
  match v with
  | JList l => Ok l
  | JDict d => Ok ((λ kv, JStr (fst kv)) <$> d)
  | JStr s => Ok (chars s)
  | _ => Raise TypeError
  end.

Definition is_substring (k s : string) : bool :=
  match String.index 0 k s with
  | Some _ => true
  | None => false
  end.

(** [k in v] for a string [k]. *)
Definition py_contains (k : string) (v : json) : result bool :=
  match v with
  | JDict d => Ok (bool_decide (is_Some (dict_lookup k d)))
  | JList l => Ok (existsb (λ x, py_eq_str x k) l)
  | JStr s => Ok (is_substring k s)
  | _ => Raise TypeError
  end.

(** [for x in l: s = body(s, x)], stopping at the first exception. *)
Fixpoint for_each {A S : Type} (body : S → A → result S) (s : S) (l : list A)
    : result S :=
  match l with
  | [] => Ok s
  | x :: l' => s' ← body s x; for_each body s' l'
  end.

(** ** Normalized items *)

(** Keys of the [fields] dict: the hashable JSON values, up to Python's
    equality of keys ([True == 1], [1 == 1.0]). *)
Inductive key :=
  | KNone
  | KNum (q : Qc)
  | KStr (s : string).

Global Instance key_eq_dec : EqDecision key.
Proof. solve_decision. Defined.

Global Instance key_countable : Countable key.
Proof.
  refine (inj_countable'
    (λ k, match k with
          | KNone => inl ()
          | KNum q => inr (inl q)
          | KStr s => inr (inr s)
          end)
    (λ x, match x with
          | inl _ => KNone
          | inr (inl q) => KNum q
          | inr (inr s) => KStr s
          end) _).
  by intros [].
Defined.

(** Using [v] as a dict key: lists and dicts are unhashable. *)
Definition to_key (v : json) : result key :=
  match v with
  | JNull => Ok KNone
  | JBool b => Ok (KNum (if b then 1 else 0)%Qc)
  | JNum q => Ok (KNum q)
  | JStr s => Ok (KStr s)
  | JList _ | JDict _ => Raise TypeError
  end.

(** The dict appended by [process_items]; its four keys are the record's
    fields, so that [item["state"]] and the like cannot fail. *)
Record pitem := PItem {
  title : json;
  state : json;
  closed_at : json;
  fields : gmap key json;
}.

(** ** [process_items] *)

(** The body of the inner loop, lines 124-133. *)
Definition process_field (fields : gmap key json) (field : json)
    : result (gmap key json) :=
  field_metadata ← py_get field "field" JNull;
  if negb (truthy field_metadata) then Ok fields
  else
    field_name ← py_get field_metadata "name" (JStr "Unknown");
    text ← py_get field "text" JNull;
    field_value ← (if truthy text then Ok text else py_get field "number" JNull);
    k ← to_key field_name;
    Ok (<[k := field_value]> fields).

(** The body of the outer loop, lines 122-147. *)
Definition process_item (item : json) : result pitem :=
  field_values ← py_get item "fieldValues" (JDict []);
  nodes ← py_get field_values "nodes" (JList []);
  entries ← py_iter nodes;
  fields ← for_each process_field ∅ entries;
  content ← py_get item "content" (JDict []);
  title ← py_get content "title" (JStr "No Title");
  state ← py_get content "state" (JStr "Unknown");
  closed_at ← py_get content "closedAt" JNull;
  Ok (PItem title state closed_at fields).

Definition process_items (items : list json) (milestone_name : string)
    : result (list pitem) :=
  for_each (λ processed_items item,
              r ← process_item item; Ok (processed_items ++ [r]))
           [] items.

(** ** [fetch_project_items] *)

(** What one [requests.post] gives back. *)
Inductive reply :=
  | BadStatus             (* response.raise_for_status() raises *)
  | BadBody               (* response.json() raises *)
  | Body (data : json).

(** The [variables] of a request. *)
Record request := Request {
  req_org : string;
  req_cursor : json;
}.

(** [next((p for p in projects if p["title"] == project_title), None)] *)
Fixpoint find_project (project_title : string) (projects : list json)
    : result (option json) :=
  match projects with
  | [] => Ok None
  | p :: rest =>
      t ← py_getitem p "title";
      if py_eq_str t project_title then Ok (Some p)
      else find_project project_title rest
  end.

(** One turn of the [while True] loop after the request is sent, lines
    87-113: the new accumulator, and the cursor of the next request
    unless the loop breaks. *)
Definition fetch_page (project_title : string) (all_items : list json)
    (r : reply) : result (list json * option json) :=
  data ← match r with
         | BadStatus => Raise HTTPError
         | BadBody => Raise JSONDecodeError
         | Body data => Ok data
         end;
  has_errors ← py_contains "errors" data;
  if has_errors : bool then
    _ ← py_getitem data "errors";     (* the argument of the print of line 92 *)
    Raise RuntimeError
  else
    has_data ← py_contains "data" data;
    if negb has_data then Raise (ValueError DataKeyMissing)
    else
      envelope ← py_getitem data "data";
      organization ← py_getitem envelope "organization";
      projects_v2 ← py_getitem organization "projectsV2";
      projects ← py_getitem projects_v2 "nodes";
      candidates ← py_iter projects;
      found ← find_project project_title candidates;
      match found with
      | None => Raise (ValueError ProjectNotFound)
      | Some project =>
          if negb (truthy project) then Raise (ValueError ProjectNotFound)
          else
            project_items ← py_getitem project "items";
            nodes ← py_getitem project_items "nodes";
            new_items ← py_iter nodes;
            let all_items := all_items ++ new_items in
            page_info ← py_getitem project_items "pageInfo";
            has_next ← py_getitem page_info "hasNextPage";
            if negb (truthy has_next) then Ok (all_items, None)
            else
              page_info ← py_getitem project_items "pageInfo";
              end_cursor ← py_getitem page_info "endCursor";
              Ok (all_items, Some end_cursor)
      end.

(** A run of the loop against the replies the endpoint gives, in order.
    [outcome] is [None] when the replies run out while the loop is still
    asking; [requests] are the variables of the requests sent, [unread] the
    replies never asked for. *)
Record run := Run {
  outcome : option (result (list json));
  requests : list request;
  unread : list reply;
}.

Definition after_request (q : request) (r : run) : run :=
  Run (outcome r) (q :: requests r) (unread r).

Fixpoint fetch_loop (org project_title : string) (replies : list reply)
    (cursor : json) (all_items : list json) : run :=
  let q := Request org cursor in
  match replies with
  | [] => Run None [q] []
  | r :: replies' =>
      match fetch_page project_title all_items r with
      | Raise e => Run (Some (Raise e)) [q] replies'
      | Ok (all_items', None) => Run (Some (Ok all_items')) [q] replies'
      | Ok (all_items', Some end_cursor) =>
          after_request q (fetch_loop org project_title replies' end_cursor all_items')
      end
  end.

Definition fetch_project_items (org project_title : string)
    (replies : list reply) : run :=
  fetch_loop org project_title replies JNull [].

(** ** Dates *)

Abbreviation date := Z.

Section Dates.
Local Open Scope Z_scope.

Record datetime := DateTime {
  dt_date : date;       (* .date(), as an ordinal *)
  dt_micros : Z;        (* microseconds since midnight *)
}.

Definition day_micros : Z := 86400 * 1000000.

(** [t + timedelta(days=i)] *)
Definition add_days (t : datetime) (i : Z) : datetime :=
  DateTime (dt_date t + i) (dt_micros t).

(** [(t2 - t1).days]: a timedelta is normalized with a floor. *)
Definition days_between (t2 t1 : datetime) : Z :=
  ((dt_date t2 - dt_date t1) * day_micros + (dt_micros t2 - dt_micros t1))
    `div` day_micros.

(** [date(y, m, d).toordinal()], for writing dates down. *)
Definition is_leap (y : Z) : bool :=
  (y `mod` 4 =? 0) && (negb (y `mod` 100 =? 0) || (y `mod` 400 =? 0)).

Definition days_in_month (y m : Z) : Z :=
  if m =? 2 then (if is_leap y then 29 else 28)
  else if (m =? 4) || (m =? 6) || (m =? 9) || (m =? 11) then 30 else 31.

Definition days_before_year (y : Z) : Z :=
  let y' := y - 1 in y' * 365 + y' `div` 4 - y' `div` 100 + y' `div` 400.

Definition days_before_month (y m : Z) : Z :=
  foldr Z.add 0 (days_in_month y <$> seqZ 1 (m - 1)).

Definition ymd (y m d : Z) : date :=
  days_before_year y + days_before_month y m + d.

Definition midnight (d : date) : datetime := DateTime d 0.
End Dates.

(** ** [calculate_by_date] *)

Definition of_Z (z : Z) : Qc := Q2Qc (inject_Z z).

Section Aggregator.
(** The two conversions of the Python library that the function calls:
    [datetime.strptime(s, "%Y-%m-%dT%H:%M:%SZ")] and [float(s)] on a
    string; [None] is their [ValueError]. *)
Variable strptime : string → option datetime.
Variable float_of_str : string → option Qc.

Definition py_strptime (v : json) : result datetime :=
  match v with
  | JStr s =>
      match strptime s with
      | Some t => Ok t
      | None => Raise (ValueError TimeDataMismatch)
      end
  | _ => Raise TypeError
  end.

(** [float(v)] *)
Definition py_float (v : json) : result Qc :=
  match v with
  | JNum q => Ok q
  | JBool b => Ok (if b then 1 else 0)%Qc
  | JStr s =>
      match float_of_str s with
      | Some q => Ok q
      | None => Raise (ValueError NotAFloat)
      end
  | JNull | JList _ | JDict _ => Raise TypeError
  end.

(** Line 157. *)
Definition item_value (field_name : option string) (item : pitem) : json :=
  match field_name with
  | None => JNum 1
  | Some f => default (JNum 0) (fields item !! KStr f)
  end.

(** The body of the loop, lines 157-160. *)
Definition tally (field_name : option string) (closed_per_day : gmap Z Qc)
    (item : pitem) : result (gmap Z Qc) :=
  let value := item_value field_name item in
  if truthy value && py_eq_str (state item) "CLOSED" && truthy (closed_at item)
  then
    t ← py_strptime (closed_at item);
    let closed_date := dt_date t in
    v ← py_float value;
    Ok (<[closed_date := (default 0 (closed_per_day !! closed_date) + v)%Qc]>
          closed_per_day)
  else Ok closed_per_day.

Definition calculate_by_date (items : list pitem) (field_name : option string)
    : result (gmap Z Qc) :=
  for_each (tally field_name) ∅ items.
End Aggregator.

(** ** [generate_burndown_chart] *)

(** The series handed to [plt.plot]; the label, file name and colour only
    reach the plotting calls. *)
Record chart := Chart {
  date_range : list datetime;
  ideal_burndown : list Qc;
  actual_burndown : list Qc;
}.

(** The loop of lines 177-181 from a given remainder. *)
Fixpoint burn_down (closed_per_day : gmap Z Qc) (remaining_value : Qc)
    (dates : list datetime) : list Qc :=
  match dates with
  | [] => []
  | current_date :: rest =>
      let current_date := dt_date current_date in
      let completed_today := default 0%Qc (closed_per_day !! current_date) in
      let remaining_value := (remaining_value - completed_today)%Qc in
      remaining_value :: burn_down closed_per_day remaining_value rest
  end.

Definition generate_burndown_chart (closed_per_day : gmap Z Qc)
    (start_date end_date : datetime) (total_value : Qc) : chart :=
  let date_range : list datetime :=
    add_days start_date <$> seqZ 0 (days_between end_date start_date + 1) in
  let n := of_Z (Z.of_nat (length date_range)) in
  let ideal_burndown :=
    (λ i, total_value - (total_value / n) * of_Z i)%Qc
      <$> seqZ 0 (Z.of_nat (length date_range)) in
  Chart date_range ideal_burndown (burn_down closed_per_day total_value date_range).

(** * Vocabulary of the properties *)

(** ** Shapes of the input *)

Definition is_dict (v : json) : bool :=
  match v with
  | JDict _ => true
  | _ => false
  end.

Definition hashable (v : json) : bool :=
  match v with
  | JList _ | JDict _ => false
  | _ => true
  end.

(** A field-value entry as the query returns it, with any part missing: an
    object whose ["field"], when it is there and truthy, is an object whose
    ["name"], when it is there, can be a key. Nothing is asked of ["text"]
    and ["number"]. *)
Definition field_entry (field : json) : bool :=
  match field with
  | JDict d =>
      let field_metadata := default JNull (dict_lookup "field" d) in
      negb (truthy field_metadata) ||
      match field_metadata with
      | JDict m => hashable (default (JStr "Unknown") (dict_lookup "name" m))
      | _ => false
      end
  | _ => false
  end.

(** A raw item: an object whose ["fieldValues"], when there, is an object
    whose ["nodes"], when there, is a list of field-value entries, and whose
    ["content"], when there, is an object. *)
Definition raw_item (item : json) : bool :=
  match item with
  | JDict d =>
      match default (JDict []) (dict_lookup "fieldValues" d) with
      | JDict fv =>
          match default (JList []) (dict_lookup "nodes" fv) with
          | JList entries => forallb field_entry entries
          | _ => false
          end
      | _ => false
      end
      && is_dict (default (JDict []) (dict_lookup "content" d))
  | _ => false
  end.

(** The entries the inner loop of [process_items] walks for an item. *)
Definition item_entries (item : json) : result (list json) :=
  field_values ← py_get item "fieldValues" (JDict []);
  nodes ← py_get field_values "nodes" (JList []);
  py_iter nodes.

(** The key under which an entry is stored; [None] for an entry that is
    skipped (no metadata) or cannot be stored. *)
Definition entry_key (field : json) : option key :=
  match field with
  | JDict d =>
      match dict_lookup "field" d with
      | Some (JDict m) =>
          if truthy (JDict m) then
            match to_key (default (JStr "Unknown") (dict_lookup "name" m)) with
            | Ok k => Some k
            | Raise _ => None
            end
          else None
      | _ => None
      end
  | _ => None
  end.

(** The value of an entry in the specification's words: its text when
    present, its number otherwise. *)
Definition text_else_number (d : list (string * json)) : json :=
  match dict_lookup "text" d with
  | Some text => text
  | None => default JNull (dict_lookup "number" d)
  end.

(** The same with the text asked to be truthy (not null, not empty). *)
Definition truthy_text_else_number (d : list (string * json)) : json :=
  match dict_lookup "text" d with
  | Some text => if truthy text then text else default JNull (dict_lookup "number" d)
  | None => default JNull (dict_lookup "number" d)
  end.

(** ** Shapes of a response *)

(** The value under a chain of keys of nested objects. *)
Fixpoint path (keys : list string) (v : json) : option json :=
  match keys with
  | [] => Some v
  | k :: keys' =>
      match v with
      | JDict d => dict_lookup k d ≫= path keys'
      | _ => None
      end
  end.

Definition projects_path : list string :=
  ["data"; "organization"; "projectsV2"; "nodes"].

(** A project with a title other than the one asked for. *)
Definition titled_other (project_title : string) (p : json) : Prop :=
  ∃ t, path ["title"] p = Some t ∧ py_eq_str t project_title = false.

(** [data] is a page for [project_title]: a response without errors whose
    first project of that title has the item nodes [items] and reports
    [next], the end cursor when there is a next page. *)
Definition page_of (project_title : string) (data : json)
    (items : list json) (next : option json) : Prop :=
  ∃ before project after has_next,
    path ["errors"] data = None ∧
    path projects_path data = Some (JList (before ++ project :: after)) ∧
    Forall (titled_other project_title) before ∧
    path ["title"] project = Some (JStr project_title) ∧
    path ["items"; "nodes"] project = Some (JList items) ∧
    path ["items"; "pageInfo"; "hasNextPage"] project = Some has_next ∧
    match next with
    | Some end_cursor =>
        truthy has_next = true ∧
        path ["items"; "pageInfo"; "endCursor"] project = Some end_cursor
    | None => truthy has_next = false
    end.

(** A page that reports a next page: the response, the item nodes it
    carries and its end cursor. *)
Record page := Page {
  page_data : json;
  page_items : list json;
  page_cursor : json;
}.

Definition is_page (project_title : string) (p : page) : Prop :=
  page_of project_title (page_data p) (page_items p) (Some (page_cursor p)).

(** ** Contributions to the bucket *)

Section AggregatorSpec.
Variable strptime : string → option datetime.
Variable float_of_str : string → option Qc.

Definition closure_date (v : json) : option Z :=
  match v with
  | JStr s => dt_date <$> strptime s
  | _ => None
  end.

Definition numeric (v : json) : option Qc :=
  match py_float float_of_str v with
  | Ok q => Some q
  | Raise _ => None
  end.

(** What an item adds to the bucket in the specification's words: only a
    [CLOSED] item with a closure timestamp adds something, on the date of
    that timestamp; it adds 1 without a field name, and with one the numeric
    value of that field, nothing when the field is missing or falsy. *)
Definition spec_contribution (field_name : option string) (item : pitem)
    : option (Z * Qc) :=
  if py_eq_str (state item) "CLOSED" && truthy (closed_at item) then
    amount ← match field_name with
             | None => Some 1%Qc
             | Some f =>
                 v ← fields item !! KStr f;
                 if truthy v then numeric v else None
             end;
    d ← closure_date (closed_at item);
    Some (d, amount)
  else None.

(** The bucket of a list of contributions: a date is present when
    something was added on it, with the sum of what was added. *)
Definition spec_bucket (contributions : list (Z * Qc)) (d : Z) : option Qc :=
  let amounts := snd <$> filter (λ c, fst c = d) contributions in
  if decide (amounts = []) then None else Some (foldl Qcplus 0%Qc amounts).

(** An item whose timestamp and value, if it gets to contribute, can be
    converted. *)
Definition convertible (field_name : option string) (item : pitem) : Prop :=
  truthy (item_value field_name item) = true →
  py_eq_str (state item) "CLOSED" = true →
  truthy (closed_at item) = true →
  is_Some (closure_date (closed_at item)) ∧
  is_Some (numeric (item_value field_name item)).

(** An item that gets past the test of line 158. *)
Definition counted (field_name : option string) (item : pitem) : bool :=
  truthy (item_value field_name item)
  && py_eq_str (state item) "CLOSED" && truthy (closed_at item).
End AggregatorSpec.

(** The same, the way the loop builds it. *)
Definition accumulate (o : option Qc) (amounts : list Qc) : option Qc :=
  foldl (λ o v, Some (default 0 o + v)%Qc) o amounts.

Definition amounts_on (d : Z) (contributions : list (Z * Qc)) : list Qc :=
  snd <$> filter (λ c, fst c = d) contributions.

(** ** The chart *)

(** What the bucket holds for the day of [t], 0 when the day is absent. *)
Definition completed_on (closed_per_day : gmap Z Qc) (t : datetime) : Qc :=
  default 0%Qc (closed_per_day !! dt_date t).

(** The number of days [generate_burndown_chart] enumerates. *)
Definition days_enumerated (start_date end_date : datetime) : nat :=
  Z.to_nat (days_between end_date start_date + 1).

(** ** Reference conversions

    A reading of the literal format [YYYY-MM-DDTHH:MM:SSZ] and of a string
    of decimal digits, to run the aggregator on written-out timestamps. *)

Definition digit (c : ascii) : option Z :=
  let n := (Z.of_nat (nat_of_ascii c) - 48)%Z in
  if ((0 <=? n) && (n <=? 9))%Z then Some n else None.

Definition digits (cs : list ascii) : option Z :=
  foldl (λ acc c, a ← acc; d ← digit c; Some (10 * a + d)%Z) (Some 0%Z) cs.

Definition strptime_strict (s : string) : option datetime :=
  match String.list_ascii_of_string s with
  | [y1; y2; y3; y4; c5; m1; m2; c8; d1; d2; c11; h1; h2; c14; n1; n2; c17; s1; s2; c20] =>
      if bool_decide ([c5; c8; c11; c14; c17; c20] = ["-"; "-"; "T"; ":"; ":"; "Z"]%char)
      then
        y ← digits [y1; y2; y3; y4];
        m ← digits [m1; m2];
        d ← digits [d1; d2];
        h ← digits [h1; h2];
        n ← digits [n1; n2];
        sec ← digits [s1; s2];
        if ((1 <=? y) && (1 <=? m) && (m <=? 12) && (1 <=? d)
            && (d <=? days_in_month y m) && (h <? 24) && (n <? 60) && (sec <? 60))%Z
        then Some (DateTime (ymd y m d) ((h * 3600 + n * 60 + sec) * 1000000)%Z)
        else None
      else None
  | _ => None
  end.

Definition float_of_digits (s : string) : option Qc :=
  if bool_decide (s = "") then None
  else of_Z <$> digits (String.list_ascii_of_string s).

(** ** Written-out inputs *)

Definition jan_2025 (d : Z) : datetime := midnight (ymd 2025 1 d).

(** The bucket [{2025-01-13: 2, 2025-01-15: 1}]. *)
Definition scenario_bucket : gmap Z Qc :=
  <[ymd 2025 1 13 := of_Z 2]> (<[ymd 2025 1 15 := of_Z 1]> ∅).

(** Field-value entries: a text value, a value of a kind the query does not
    select (no metadata), a number value, and one whose metadata is null. *)
Definition area_entry : list (string * json) :=
  [("text", JStr "backend"); ("field", JDict [("name", JStr "Area")])].

Definition estimate_entry : list (string * json) :=
  [("number", JNum (of_Z 3)); ("field", JDict [("name", JStr "Estimate")])].

Definition orphan_entry : list (string * json) :=
  [("text", JStr "stray"); ("field", JNull)].

Definition sample_item : json :=
  JDict [("id", JStr "PVTI_1");
         ("fieldValues",
          JDict [("nodes", JList [JDict area_entry; JDict []; JDict estimate_entry;
                                  JDict orphan_entry])]);
         ("content",
          JDict [("title", JStr "Fix login"); ("state", JStr "CLOSED");
                 ("closedAt", JStr "2025-01-13T10:20:30Z")])].

(** An item with nothing but an identifier. *)
Definition bare_item : json := JDict [("id", JStr "PVTI_2")].

(** An entry with both an empty text and a number. *)
Definition empty_text_entry : list (string * json) :=
  [("text", JStr ""); ("number", JNum (of_Z 7));
   ("field", JDict [("name", JStr "Estimate")])].

Definition empty_text_item : json :=
  JDict [("fieldValues", JDict [("nodes", JList [JDict empty_text_entry])])].

(** Normalized items: closed with an estimate of 3, closed with an estimate
    of 0, open, closed without estimate. *)
Definition done_3 : pitem :=
  PItem (JStr "Fix login") (JStr "CLOSED") (JStr "2025-01-13T10:20:30Z")
        {[KStr "Estimate" := JNum (of_Z 3)]}.

Definition done_0 : pitem :=
  PItem (JStr "Write docs") (JStr "CLOSED") (JStr "2025-01-13T18:00:00Z")
        {[KStr "Estimate" := JNum (of_Z 0)]}.

Definition open_5 : pitem :=
  PItem (JStr "Refactor") (JStr "OPEN") JNull {[KStr "Estimate" := JNum (of_Z 5)]}.

Definition done_plain : pitem :=
  PItem (JStr "Tidy up") (JStr "CLOSED") (JStr "2025-01-14T09:00:00Z") ∅.

Definition sample_items : list pitem := [done_3; done_0; open_5; done_plain].

(** Items whose closure timestamp is not in the format: an open one, a
    closed one without estimate, a closed one with an estimate. *)
Definition open_garbled : pitem :=
  PItem (JStr "Draft") (JStr "OPEN") (JStr "13/01/2025") ∅.

Definition done_plain_garbled : pitem :=
  PItem (JStr "Tidy up") (JStr "CLOSED") (JStr "13/01/2025") ∅.

Definition done_3_garbled : pitem :=
  PItem (JStr "Fix login") (JStr "CLOSED") (JStr "13/01/2025")
        {[KStr "Estimate" := JNum (of_Z 3)]}.

(** Responses. *)
Definition project_node (project_title : string) (items : list json)
    (has_next : bool) (end_cursor : json) : json :=
  JDict [("title", JStr project_title);
         ("items",
          JDict [("nodes", JList items);
                 ("pageInfo",
                  JDict [("hasNextPage", JBool has_next);
                         ("endCursor", end_cursor)])])].

Definition response_fields (projects : list json) : list (string * json) :=
  [("data",
    JDict [("organization",
            JDict [("projectsV2", JDict [("nodes", JList projects)])])])].

Definition response (projects : list json) : json :=
  JDict (response_fields projects).

Definition errors_response : list (string * json) :=
  [("errors", JList [JDict [("message", JStr "Bad credentials")]])].

Definition message_response : list (string * json) :=
  [("message", JStr "Not Found")].

Definition page_one : json :=
  response [project_node "palette" [JStr "x"] true (JStr "Zm9v");
            project_node "Palette" [sample_item; bare_item] true (JStr "Y3Vyc29yOjI=")].

Definition page_two : json :=
  response [project_node "palette" [] false JNull;
            project_node "Palette" [empty_text_item] false JNull].

(** * The entry point *)

(** ** [main] *)

(** Lines 22-23. *)
Definition START_DATE : datetime := midnight (ymd 2025 1 12).
Definition END_DATE : datetime := midnight (ymd 2025 1 25).

(** One call of [generate_burndown_chart] as [main] makes it: the series and
    the display arguments that go to the plotting calls with them. *)
Record rendering := Rendering {
  r_chart : chart;
  r_ylabel : string;
  r_filename : string;
  r_color : string;
}.

(** What a run of [main] leaves behind: the charts rendered, in order, and
    how it ended ([None] when the replies ran out, as for [run]). *)
Record main_run := MainRun {
  rendered : list rendering;
  ending : option (result unit);
}.

Section Main.
Variable strptime : string → option datetime.
Variable float_of_str : string → option Qc.

(** Lines 217-219: the [sum] of a generator, from 0 and in item order. *)
Definition total_estimate (processed_items : list pitem) : result Qc :=
  for_each (λ total item,
              if bool_decide (is_Some (fields item !! KStr "Estimate")) then
                v ← py_float float_of_str
                       (default (JNum 0) (fields item !! KStr "Estimate"));
                Ok (total + v)%Qc
              else Ok total)
           0%Qc processed_items.

(** Lines 204-223, with the environment's [ORG] and [PROJECT_TITLE] and the
    replies of the endpoint as arguments. *)
Definition main (org project_title : string) (replies : list reply) : main_run :=
  match outcome (fetch_project_items org project_title replies) with
  | None => MainRun [] None
  | Some (Raise e) => MainRun [] (Some (Raise e))
  | Some (Ok items) =>
      match process_items items "Sprint 4" with
      | Raise e => MainRun [] (Some (Raise e))
      | Ok processed_items =>
          let total_tasks := of_Z (Z.of_nat (length processed_items)) in
          match calculate_by_date strptime float_of_str processed_items None with
          | Raise e => MainRun [] (Some (Raise e))
          | Ok closed_tasks_per_day =>
              let tasks :=
                Rendering (generate_burndown_chart closed_tasks_per_day
                             START_DATE END_DATE total_tasks)
                          "Remaining Tasks" "burndown_tasks.png" "blue" in
              match total_estimate processed_items with
              | Raise e => MainRun [tasks] (Some (Raise e))
              | Ok total_estimate =>
                  match calculate_by_date strptime float_of_str processed_items
                          (Some "Estimate") with
                  | Raise e => MainRun [tasks] (Some (Raise e))
                  | Ok closed_estimates_per_day =>
                      let estimates :=
                        Rendering (generate_burndown_chart closed_estimates_per_day
                                     START_DATE END_DATE total_estimate)
                                  "Remaining Estimate" "burndown_estimates.png"
                                  "green" in
                      MainRun [tasks; estimates] (Some (Ok ()))
                  end
              end
          end
      end
  end.
End Main.

(** ** Vocabulary of the further properties *)

(** The sum of a list of numbers, from 0 and from the left. *)
Definition sumQ (l : list Qc) : Qc := foldl Qcplus 0%Qc l.

(** An entry that the inner loop of [process_items] stores. *)
Definition keyed (field : json) : bool :=
  match entry_key field with
  | Some _ => true
  | None => false
  end.

(** Pointwise sum of two buckets. *)
Definition bucket_sum (b1 b2 : gmap Z Qc) : gmap Z Qc :=
  union_with (λ x y, Some (x + y)%Qc) b1 b2.

(** The part of [raw_item] that is about the field values. *)
Definition raw_field_values (item : json) : bool :=
  match item with
  | JDict d =>
      match default (JDict []) (dict_lookup "fieldValues" d) with
      | JDict fv =>
          match default (JList []) (dict_lookup "nodes" fv) with
          | JList entries => forallb field_entry entries
          | _ => false
          end
      | _ => false
      end
  | _ => false
  end.

(** An item that is [CLOSED] with a closure timestamp on the date [d]. *)
Definition closed_on (strptime : string → option datetime) (d : Z)
    (item : pitem) : bool :=
  py_eq_str (state item) "CLOSED" && truthy (closed_at item)
  && bool_decide (closure_date strptime (closed_at item) = Some d).

(** A list of numbers that never goes up, starting at most at [top]. *)
Definition never_rises (top : Qc) (l : list Qc) : Prop :=
  (∀ x, l !! 0 = Some x → (x ≤ top)%Qc) ∧
  (∀ (i : nat) x y, l !! i = Some x → l !! S i = Some y → (y ≤ x)%Qc).

(** ** Further written-out inputs *)

(** A closed item whose Estimate is a text that is no number, and a record
    whose Estimate is null. *)
Definition done_text : pitem :=
  PItem (JStr "Spike") (JStr "CLOSED") (JStr "2025-01-15T08:00:00Z")
        {[KStr "Estimate" := JStr "large"]}.

Definition open_null : pitem :=
  PItem (JStr "Idea") (JStr "OPEN") JNull {[KStr "Estimate" := JNull]}.

(** A raw item whose Estimate entry has metadata and a null number. *)
Definition null_estimate_item : json :=
  JDict [("fieldValues",
          JDict [("nodes",
                  JList [JDict [("number", JNull);
                                ("field", JDict [("name", JStr "Estimate")])]])]);
         ("content", JDict [("title", JStr "Idea"); ("state", JStr "OPEN")])].

Definition null_estimate_page : json :=
  response [project_node "Palette" [sample_item; null_estimate_item] false JNull].

Definition empty_page : json :=
  response [project_node "Palette" [] false JNull].

(** Noon of 2025-01-12. *)
Definition noon_jan_12 : datetime :=
  DateTime (ymd 2025 1 12) (12 * 3600 * 1000000).

(** The record of [sample_item]. *)
Definition sample_record : pitem :=
  PItem (JStr "Fix login") (JStr "CLOSED") (JStr "2025-01-13T10:20:30Z")
        (<[KStr "Estimate" := JNum (of_Z 3)]> {[KStr "Area" := JStr "backend"]}).

(** * The normalized record and the ideal trajectory in binary64 *)

(** ** The normalized record of a raw item *)








(** ** Line 171 in binary64 *)






(** * Properties *)

(** ** The error monad and the loops *)

Lemma bind_Ok {A B} (f : A → result B) (m : result A) (b : B) :
  m ≫= f = Ok b ↔ ∃ a, m = Ok a ∧ f a = Ok b.
Proof.
  destruct m as [a|e]; simpl; split.
  - eauto.
  - by intros (? & [= <-] & ?).
  - done.
  - by intros (? & ? & ?).
Qed.

Lemma for_each_app {A S} (body : S → A → result S) s l1 l2 :
  for_each body s (l1 ++ l2) = for_each body s l1 ≫= λ s', for_each body s' l2.
Proof.
  revert s. induction l1 as [|x l1 IH]; intros s; simpl; [done|].
  destruct (body s x) as [s'|e]; simpl; [apply IH | done].
Qed.

Lemma for_each_Raise {A S} (body : S → A → result S) s l1 x l2 s' e :
  for_each body s l1 = Ok s' → body s' x = Raise e →
  for_each body s (l1 ++ x :: l2) = Raise e.
Proof. intros H1 H2. rewrite for_each_app, H1. simpl. by rewrite H2. Qed.

(** ** [process_items] *)

Lemma process_items_from acc items out :
  for_each (λ processed_items item,
              r ← process_item item; Ok (processed_items ++ [r])) acc items = Ok out →
  ∃ rs, out = acc ++ rs ∧ Forall2 (λ item r, process_item item = Ok r) items rs.
Proof.
  revert acc. induction items as [|item items IH]; intros acc; simpl.
  - intros [= <-]. exists []. by rewrite app_nil_r.
  - intros H. apply bind_Ok in H as (acc' & H1 & H2).
    apply bind_Ok in H1 as (r & Hr & [= <-]).
    apply IH in H2 as (rs & -> & HF).
    exists (r :: rs). split; [by rewrite <- app_assoc | by constructor].
Qed.

Lemma process_field_total fs field :
  field_entry field = true → ∃ fs', process_field fs field = Ok fs'.
Proof.
  destruct field as [| | | | |d]; try done. unfold process_field. simpl.
  destruct (truthy (default JNull (dict_lookup "field" d))) eqn:Hmd; simpl.
  2: { eauto. }
  destruct (default JNull (dict_lookup "field" d)) as [| | | | |m]; try done.
  simpl. intros Hname.
  destruct (truthy (default JNull (dict_lookup "text" d))); simpl;
    destruct (default (JStr "Unknown") (dict_lookup "name" m)); try done; simpl; eauto.
Qed.

Lemma process_fields_total entries fs :
  forallb field_entry entries = true →
  ∃ fs', for_each process_field fs entries = Ok fs'.
Proof.
  revert fs. induction entries as [|e entries IH]; intros fs; simpl; [eauto|].
  intros [He Hes]%andb_prop.
  destruct (process_field_total fs e He) as [fs1 ->]. simpl. by apply IH.
Qed.

Lemma process_item_total item :
  raw_item item = true → ∃ r, process_item item = Ok r.
Proof.
  destruct item as [| | | | |d]; try done. unfold process_item. simpl.
  intros [Hfv Hc]%andb_prop.
  destruct (default (JDict []) (dict_lookup "fieldValues" d)) as [| | | | |fv];
    try done. simpl.
  destruct (default (JList []) (dict_lookup "nodes" fv)) as [| | | |entries|];
    try done. simpl.
  destruct (process_fields_total entries ∅ Hfv) as [fs ->]. simpl.
  destruct (default (JDict []) (dict_lookup "content" d)); try done.
  simpl. eauto.
Qed.

Lemma process_items_total items acc :
  Forall (λ item, raw_item item = true) items →
  ∃ out, for_each (λ processed_items item,
              r ← process_item item; Ok (processed_items ++ [r])) acc items = Ok out.
Proof.
  intros H. revert acc. induction H as [|item items Hi _ IH]; intros acc; simpl.
  - eauto.
  - destruct (process_item_total item Hi) as [r ->]. simpl. apply IH.
Qed.

(** C10. The [milestone_name] argument has no effect on the result. *)
Theorem process_items_milestone_irrelevant (items : list json)
    (milestone_a milestone_b : string) :
  process_items items milestone_a = process_items items milestone_b.
Proof. reflexivity. Qed.

(** What one turn of the inner loop does to the mapping. *)
Lemma process_field_Ok fs field fs' :
  process_field fs field = Ok fs' →
  (entry_key field = None ∧ fs' = fs) ∨
  (∃ d k, field = JDict d ∧ entry_key field = Some k ∧
          fs' = <[k := truthy_text_else_number d]> fs).
Proof.
  destruct field as [| | | | |d]; try done.
  unfold process_field, entry_key, truthy_text_else_number. simpl.
  destruct (dict_lookup "field" d) as [md|] eqn:Hmd; simpl.
  2: { intros [= <-]. by left. }
  destruct (truthy md) eqn:Ht; simpl.
  2: { intros [= <-]. left. split; [|done].
       destruct md; try done. simpl in *. by rewrite Ht. }
  destruct md as [| | | | |m]; try done. simpl in *. rewrite Ht. simpl.
  intros H. right. exists d.
  destruct (dict_lookup "text" d) as [text|]; simpl in H.
  - destruct (truthy text); simpl in H;
      destruct (to_key (default (JStr "Unknown") (dict_lookup "name" m)))
        as [k|]; simpl in H; try done; injection H as <-; eauto.
  - destruct (to_key (default (JStr "Unknown") (dict_lookup "name" m)))
      as [k|]; simpl in H; try done; injection H as <-; eauto.
Qed.

Lemma process_fields_other entries fs fs' k :
  for_each process_field fs entries = Ok fs' →
  Forall (λ e, entry_key e ≠ Some k) entries →
  fs' !! k = fs !! k.
Proof.
  intros H HF. revert fs H.
  induction HF as [|e entries He _ IH]; intros fs; simpl.
  - by intros [= <-].
  - intros (fs1 & H1 & H2)%bind_Ok. rewrite (IH _ H2).
    destruct (process_field_Ok _ _ _ H1) as [[_ ->]|(d & k' & -> & Hk & ->)];
      [done|].
    apply lookup_insert_ne. congruence.
Qed.

Lemma process_fields_last pre d post fs fs' k :
  for_each process_field fs (pre ++ JDict d :: post) = Ok fs' →
  entry_key (JDict d) = Some k →
  Forall (λ e, entry_key e ≠ Some k) post →
  fs' !! k = Some (truthy_text_else_number d).
Proof.
  rewrite for_each_app. intros (fs1 & _ & H)%bind_Ok Hk Hpost.
  simpl in H. apply bind_Ok in H as (fs2 & H2 & H3).
  rewrite (process_fields_other _ _ _ _ H3 Hpost).
  destruct (process_field_Ok _ _ _ H2) as [[Hn _]|(d' & k' & [= <-] & Hk' & ->)];
    [congruence|].
  assert (k' = k) as -> by congruence. apply lookup_insert_eq.
Qed.

Lemma process_item_fields item r entries :
  process_item item = Ok r → item_entries item = Ok entries →
  for_each process_field ∅ entries = Ok (fields r).
Proof.
  unfold process_item, item_entries.
  intros (fv & -> & H)%bind_Ok. simpl.
  apply bind_Ok in H as (nodes & -> & H). simpl.
  apply bind_Ok in H as (es & -> & H). intros [= <-].
  apply bind_Ok in H as (fs & -> & H).
  apply bind_Ok in H as (c & _ & H).
  apply bind_Ok in H as (t & _ & H).
  apply bind_Ok in H as (s & _ & H).
  apply bind_Ok in H as (ca & _ & H).
  by injection H as <-.
Qed.

(** C5, amended. For an entry that carries field metadata, the value found
    under its field name in the resulting mapping is its text when that is
    present and truthy (neither null nor empty) and its number (null when
    absent) otherwise, provided no later entry of the item carries the same
    name; so the text wins over a number whenever it is truthy. *)
Theorem process_items_field_value (items : list json) (milestone_name : string)
    (out : list pitem) (i : nat) (item : json) (r : pitem)
    (pre post : list json) (d : list (string * json)) (k : key) :
  process_items items milestone_name = Ok out →
  items !! i = Some item →
  out !! i = Some r →
  item_entries item = Ok (pre ++ JDict d :: post) →
  entry_key (JDict d) = Some k →
  Forall (λ e, entry_key e ≠ Some k) post →
  fields r !! k = Some (truthy_text_else_number d) ∧
  ((∀ text, dict_lookup "text" d = Some text → truthy text = true) →
   fields r !! k = Some (text_else_number d)).
Proof.
  intros Hout Hi Hr He Hk Hpost.
  apply process_items_from in Hout as (rs & -> & HF). simpl in Hr.
  destruct (Forall2_lookup_l _ _ _ _ _ HF Hi) as (r' & Hr' & Hitem).
  assert (r' = r) as -> by congruence.
  pose proof (process_item_fields _ _ _ Hitem He) as Hfs.
  rewrite (process_fields_last _ _ _ _ _ _ Hfs Hk Hpost).
  split; [done|]. intros Htext. f_equal.
  unfold truthy_text_else_number, text_else_number.
  destruct (dict_lookup "text" d) as [text|] eqn:E; [|done].
  by rewrite (Htext text eq_refl).
Qed.

(** ** The records of [process_items] *)







(** ** [generate_burndown_chart] *)

Lemma Qc_sub_nonneg_le (x v : Qc) : (0 ≤ v)%Qc → (x - v ≤ x)%Qc.
Proof.
  intros Hv. unfold Qcminus.
  rewrite <- (Qcplus_0_r x) at 2.
  apply Qcplus_le_mono_l.
  apply Qcopp_le_compat in Hv. done.
Qed.

Lemma days_enumerated_midnight (a b : Z) :
  days_enumerated (midnight a) (midnight b) = Z.to_nat (b - a + 1).
Proof.
  unfold days_enumerated, days_between. simpl.
  by rewrite Z.sub_diag, Z.add_0_r, Z.div_mul.
Qed.

Lemma date_range_length b s e T :
  length (date_range (generate_burndown_chart b s e T)) = days_enumerated s e.
Proof. simpl. by rewrite length_fmap, length_seqZ. Qed.

Lemma date_range_lookup b s e T (i : nat) :
  i < days_enumerated s e →
  date_range (generate_burndown_chart b s e T) !! i = Some (add_days s (Z.of_nat i)).
Proof.
  intros Hi. simpl. rewrite list_lookup_fmap, lookup_seqZ_lt; [done|].
  unfold days_enumerated in Hi. lia.
Qed.

Lemma burn_down_length b T ds : length (burn_down b T ds) = length ds.
Proof. revert T. induction ds as [|t ds IH]; intros T; simpl; [done|]. by rewrite IH. Qed.

Lemma burn_down_first b T t ds :
  ds !! 0 = Some t → burn_down b T ds !! 0 = Some (T - completed_on b t)%Qc.
Proof. destruct ds; [done|]. by intros [= ->]. Qed.

Lemma burn_down_next b T ds (i : nat) t prev :
  ds !! S i = Some t → burn_down b T ds !! i = Some prev →
  burn_down b T ds !! S i = Some (prev - completed_on b t)%Qc.
Proof.
  revert T ds. induction i as [|i IH]; intros T [|t0 ds]; simpl; try done.
  - destruct ds as [|t1 ds]; simpl; [done|]. by intros [= ->] [= <-].
  - apply IH.
Qed.

Lemma burn_down_ext b b' T ds :
  (∀ t, t ∈ ds → b' !! dt_date t = b !! dt_date t) →
  burn_down b' T ds = burn_down b T ds.
Proof.
  revert T. induction ds as [|t ds IH]; intros T H; simpl; [done|].
  rewrite (H t) by left. f_equal. apply IH. intros t' Ht'. apply H. by right.
Qed.

(** C2. The days enumerated for the dates a to b are b - a + 1 in number.
    The actual trajectory has one entry per enumerated day, the days
    being the start day and the days after it in order; the first entry is
    the total less what the bucket holds for the first day (0 if absent) and
    every later entry is the entry before it less what the bucket holds for
    its day, with no clamping. Buckets that agree on the enumerated days give
    the same trajectory, and the scenario of the specification gives
    [5, 3, 3]. *)
Theorem actual_burndown_running_remainder (closed_per_day : gmap Z Qc)
    (start_date end_date : datetime) (total_value : Qc) :
  let ch := generate_burndown_chart closed_per_day start_date end_date total_value in
  (∀ a b : Z, days_enumerated (midnight a) (midnight b) = Z.to_nat (b - a + 1)) ∧
  length (date_range ch) = days_enumerated start_date end_date ∧
  length (actual_burndown ch) = days_enumerated start_date end_date ∧
  (∀ i : nat, i < days_enumerated start_date end_date →
     date_range ch !! i = Some (add_days start_date (Z.of_nat i))) ∧
  (∀ t, date_range ch !! 0 = Some t →
     actual_burndown ch !! 0 = Some (total_value - completed_on closed_per_day t)%Qc) ∧
  (∀ (i : nat) t prev,
     date_range ch !! S i = Some t → actual_burndown ch !! i = Some prev →
     actual_burndown ch !! S i = Some (prev - completed_on closed_per_day t)%Qc) ∧
  (∀ other : gmap Z Qc,
     (∀ t, t ∈ date_range ch → other !! dt_date t = closed_per_day !! dt_date t) →
     actual_burndown (generate_burndown_chart other start_date end_date total_value)
     = actual_burndown ch) ∧
  actual_burndown
    (generate_burndown_chart scenario_bucket (jan_2025 12) (jan_2025 14) (of_Z 5))
  = [of_Z 5; of_Z 3; of_Z 3] ∧
  actual_burndown
    (generate_burndown_chart scenario_bucket (jan_2025 13) (jan_2025 13) (of_Z 1))
  = [of_Z (-1)].
Proof.
  intros ch. pose proof (date_range_length closed_per_day start_date end_date total_value) as Hlen.
  split_and!.
  - apply days_enumerated_midnight.
  - done.
  - unfold ch. simpl. rewrite burn_down_length. apply Hlen.
  - apply date_range_lookup.
  - intros t. apply burn_down_first.
  - intros i t prev. apply burn_down_next.
  - intros other H. apply burn_down_ext, H.
  - vm_compute. reflexivity.
  - vm_compute. reflexivity.
Qed.





(** ** [fetch_project_items] *)

Lemma path_cons k ks v x :
  path (k :: ks) v = Some x → ∃ y, py_getitem v k = Ok y ∧ path ks y = Some x.
Proof.
  simpl. destruct v as [| | | | |d]; try done. simpl.
  destruct (dict_lookup k d) as [y|]; [|done]. eauto.
Qed.

Lemma path_one k v x : path [k] v = Some x → py_getitem v k = Ok x.
Proof. by intros (y & -> & [= ->])%path_cons. Qed.

Lemma find_project_none project_title projects :
  Forall (titled_other project_title) projects →
  find_project project_title projects = Ok None.
Proof.
  induction 1 as [|p ps (t & Ht%path_one & Hne) _ IH]; simpl; [done|].
  by rewrite Ht; simpl; rewrite Hne.
Qed.

Lemma find_project_first project_title before project after :
  Forall (titled_other project_title) before →
  path ["title"] project = Some (JStr project_title) →
  find_project project_title (before ++ project :: after) = Ok (Some project).
Proof.
  intros Hb Ht%path_one.
  induction Hb as [|p ps (t & Hp%path_one & Hne) _ IH]; simpl.
  - rewrite Ht. simpl. by rewrite bool_decide_eq_true_2.
  - by rewrite Hp; simpl; rewrite Hne.
Qed.

Arguments dict_lookup : simpl never.

(** The three tests of a turn, in the order of the source. *)
Lemma fetch_page_errors project_title acc d :
  is_Some (dict_lookup "errors" d) →
  fetch_page project_title acc (Body (JDict d)) = Raise ProtocolError.
Proof.
  intros [x Hx]. unfold fetch_page. simpl.
  rewrite bool_decide_eq_true_2 by eauto. by rewrite Hx.
Qed.

Lemma fetch_page_no_data project_title acc d :
  dict_lookup "errors" d = None → dict_lookup "data" d = None →
  fetch_page project_title acc (Body (JDict d)) = Raise SchemaError.
Proof.
  intros He Hd. unfold fetch_page. simpl. by rewrite He, Hd.
Qed.

Lemma fetch_page_not_found project_title acc d projects :
  dict_lookup "errors" d = None →
  path projects_path (JDict d) = Some (JList projects) →
  Forall (titled_other project_title) projects →
  fetch_page project_title acc (Body (JDict d)) = Raise NotFoundError.
Proof.
  intros He Hp Hall. unfold fetch_page. simpl. rewrite He.
  apply path_cons in Hp as (envelope & H1 & Hp).
  apply path_cons in Hp as (organization & H2 & Hp).
  apply path_cons in Hp as (projects_v2 & H3 & Hp).
  apply path_one in Hp. simpl in H1.
  destruct (dict_lookup "data" d) as [x|]; [|done]. injection H1 as ->.
  simpl. rewrite H2. simpl. rewrite H3. simpl. rewrite Hp. simpl.
  by rewrite find_project_none.
Qed.

Lemma path_truthy k v x : path [k] v = Some x → truthy v = true.
Proof.
  destruct v as [| | | | |d]; try done. by destruct d.
Qed.

Lemma fetch_page_page_of project_title acc data items next :
  page_of project_title data items next →
  fetch_page project_title acc (Body data) = Ok (acc ++ items, next).
Proof.
  intros (before & project & after & has_next & He & Hp & Hb & Ht & Hi & Hn & Hnext).
  destruct data as [| | | | |d]; try done.
  unfold fetch_page. simpl. simpl in He.
  destruct (dict_lookup "errors" d); [done|]. clear He.
  apply path_cons in Hp as (envelope & H1 & Hp).
  apply path_cons in Hp as (organization & H2 & Hp).
  apply path_cons in Hp as (projects_v2 & H3 & Hp).
  apply path_one in Hp. simpl in H1.
  destruct (dict_lookup "data" d) as [x|]; [|done]. injection H1 as ->.
  simpl. rewrite H2. simpl. rewrite H3. simpl. rewrite Hp. simpl.
  rewrite (find_project_first _ _ _ _ Hb Ht). simpl.
  rewrite (path_truthy _ _ _ Ht). simpl.
  apply path_cons in Hi as (project_items & H4 & Hi). apply path_one in Hi.
  apply path_cons in Hn as (project_items' & H4' & Hn).
  assert (project_items' = project_items) as -> by congruence.
  apply path_cons in Hn as (page_info & H5 & Hn). apply path_one in Hn.
  rewrite H4. simpl. rewrite Hi. simpl. rewrite H5. simpl. rewrite Hn. simpl.
  destruct next as [end_cursor|].
  - destruct Hnext as [-> Hc]. simpl.
    apply path_cons in Hc as (project_items' & H4'' & Hc).
    assert (project_items' = project_items) as -> by congruence.
    apply path_cons in Hc as (page_info' & H5' & Hc). apply path_one in Hc.
    assert (page_info' = page_info) as -> by congruence.
    by rewrite Hc.
  - by rewrite Hnext.
Qed.

(** C7. At every turn of the loop, whatever the cursor and the items
    gathered so far, a response object with a top-level ["errors"] entry ends
    the run with a ProtocolError; one without it and without ["data"] ends it
    with a SchemaError; one without errors whose projects all carry other
    titles ends it with a NotFoundError. The tests come in that order: the
    first asks nothing of the rest of the response, the second only that
    there are no errors. *)
Theorem fetch_page_checks_in_order (org project_title : string)
    (d : list (string * json)) (rest : list reply) (cursor : json)
    (all_items : list json) :
  let r := fetch_loop org project_title (Body (JDict d) :: rest) cursor all_items in
  (is_Some (dict_lookup "errors" d) →
     r = Run (Some (Raise ProtocolError)) [Request org cursor] rest) ∧
  (dict_lookup "errors" d = None → dict_lookup "data" d = None →
     r = Run (Some (Raise SchemaError)) [Request org cursor] rest) ∧
  (dict_lookup "errors" d = None →
   ∀ projects, path projects_path (JDict d) = Some (JList projects) →
     Forall (titled_other project_title) projects →
     r = Run (Some (Raise NotFoundError)) [Request org cursor] rest).
Proof.
  intros r. unfold r. cbn [fetch_loop]. split_and!.
  - intros H. by rewrite fetch_page_errors.
  - intros He Hd. by rewrite fetch_page_no_data.
  - intros He projects Hp Hall. by rewrite (fetch_page_not_found _ _ _ projects).
Qed.

Lemma fetch_loop_pages org project_title more last last_items rest cursor acc :
  Forall (is_page project_title) more →
  page_of project_title last last_items None →
  fetch_loop org project_title
    ((Body <$> (page_data <$> more)) ++ Body last :: rest) cursor acc
  = Run (Some (Ok (acc ++ concat (page_items <$> more) ++ last_items)))
        (Request org <$> (cursor :: (page_cursor <$> more))) rest.
Proof.
  intros Hmore Hlast. revert cursor acc.
  induction Hmore as [|[data items c] more Hp _ IH]; intros cursor acc.
  - cbn [fmap list_fmap app fetch_loop concat].
    by rewrite (fetch_page_page_of _ _ _ _ _ Hlast).
  - unfold is_page in Hp.
    cbn [fmap list_fmap app fetch_loop concat page_data page_items page_cursor] in *.
    rewrite (fetch_page_page_of _ _ _ _ _ Hp), IH.
    unfold after_request. cbn. by rewrite <- !app_assoc.
Qed.

(** C8. When every reply is a page for the requested title, all but the
    last reporting a next page, [fetch_project_items] returns the item nodes
    of the pages in page order, each page's in its own order; the first
    request carries a null cursor and every later one the end cursor of the
    page before it; and nothing is asked after the first page that reports
    no next page. *)
Theorem fetch_project_items_all_pages (org project_title : string)
    (more : list page) (last : json) (last_items : list json)
    (rest : list reply) :
  Forall (is_page project_title) more →
  page_of project_title last last_items None →
  fetch_project_items org project_title
    ((Body <$> (page_data <$> more)) ++ Body last :: rest)
  = Run (Some (Ok (concat (page_items <$> more) ++ last_items)))
        (Request org <$> (JNull :: (page_cursor <$> more))) rest.
Proof.
  intros Hmore Hlast. unfold fetch_project_items.
  by rewrite (fetch_loop_pages _ _ _ _ _ _ _ _ Hmore Hlast).
Qed.

(** ** [calculate_by_date] *)

Section AggregatorProps.
Variable strptime : string → option datetime.
Variable float_of_str : string → option Qc.


Lemma accumulate_Some a amounts :
  accumulate (Some a) amounts = Some (foldl Qcplus a amounts).
Proof. revert a. induction amounts as [|v vs IH]; intros a; [done|apply IH]. Qed.

Lemma accumulate_None amounts :
  accumulate None amounts =
  if decide (amounts = []) then None else Some (foldl Qcplus 0%Qc amounts).
Proof. destruct amounts as [|v vs]; [done|]. simpl. apply accumulate_Some. Qed.

Lemma truthy_one : truthy (JNum 1) = true.
Proof. reflexivity. Qed.

Lemma truthy_zero : truthy (JNum 0) = false.
Proof. reflexivity. Qed.

Lemma py_strptime_Ok v t :
  py_strptime strptime v = Ok t → closure_date strptime v = Some (dt_date t).
Proof.
  destruct v as [| | |s| |]; try done. simpl.
  by destruct (strptime s) as [t'|]; [intros [= ->]|].
Qed.

Lemma py_float_Ok v q :
  py_float float_of_str v = Ok q → numeric float_of_str v = Some q.
Proof. unfold numeric. by intros ->. Qed.

(** What one turn of the loop does to the bucket. *)
Lemma tally_Ok field_name b item b' :
  tally strptime float_of_str field_name b item = Ok b' →
  (spec_contribution strptime float_of_str field_name item = None ∧ b' = b) ∨
  (∃ d v, spec_contribution strptime float_of_str field_name item = Some (d, v) ∧
          b' = <[d := (default 0 (b !! d) + v)%Qc]> b).
Proof.
  unfold tally, spec_contribution.
  destruct (py_eq_str (state item) "CLOSED") eqn:Hs;
    [|rewrite andb_false_r; intros [= <-]; by left].
  destruct (truthy (closed_at item)) eqn:Hc;
    [|rewrite andb_false_r; intros [= <-]; by left].
  rewrite !andb_true_r. simpl.
  destruct (truthy (item_value field_name item)) eqn:Hv.
  - intros (t & Ht%py_strptime_Ok & H)%bind_Ok.
    apply bind_Ok in H as (v & Hq%py_float_Ok & [= <-]).
    right. exists (dt_date t), v. split; [|done]. rewrite Ht.
    destruct field_name as [f|]; unfold item_value in *; simpl.
    + destruct (fields item !! KStr f) as [x|]; simpl default in *; simpl;
        [by rewrite Hv, Hq | by rewrite truthy_zero in Hv].
    + unfold numeric in Hq. simpl in Hq. by injection Hq as <-.
  - intros [= <-]. left. split; [|done].
    destruct field_name as [f|]; unfold item_value in *;
      [|by rewrite truthy_one in Hv].
    destruct (fields item !! KStr f) as [x|]; simpl default in *;
      simpl; [by rewrite Hv|done].
Qed.

Lemma tally_all field_name items b0 b :
  for_each (tally strptime float_of_str field_name) b0 items = Ok b →
  ∀ d, b !! d =
       accumulate (b0 !! d) (amounts_on d (omap (spec_contribution strptime float_of_str field_name) items)).
Proof.
  revert b0. induction items as [|item items IH]; intros b0; simpl.
  - by intros [= <-].
  - intros (b1 & H1 & H2)%bind_Ok d. rewrite (IH _ H2 d).
    destruct (tally_Ok _ _ _ _ H1) as [[-> ->]|(d' & v & -> & ->)]; [done|].
    unfold amounts_on. rewrite filter_cons. simpl.
    destruct (decide (d' = d)) as [->|Hne]; simpl.
    + by rewrite lookup_insert_eq.
    + by rewrite lookup_insert_ne.
Qed.

Lemma tally_total field_name item b :
  convertible strptime float_of_str field_name item → ∃ b', tally strptime float_of_str field_name b item = Ok b'.
Proof.
  unfold convertible, tally. intros H.
  destruct (truthy (item_value field_name item)); simpl; [|eauto].
  destruct (py_eq_str (state item) "CLOSED"); simpl; [|eauto].
  destruct (truthy (closed_at item)); simpl; [|eauto].
  destruct H as [[d Hd] [q Hq]]; try done.
  unfold closure_date in Hd. unfold numeric in Hq.
  destruct (closed_at item) as [| | |s| |]; try done. simpl.
  destruct (strptime s); [simpl|done].
  destruct (py_float float_of_str (item_value field_name item)); [|done].
  simpl. eauto.
Qed.

Lemma tally_all_total field_name items b0 :
  Forall (convertible strptime float_of_str field_name) items →
  ∃ b, for_each (tally strptime float_of_str field_name) b0 items = Ok b.
Proof.
  intros H. revert b0. induction H as [|item items Hi _ IH]; intros b0; simpl.
  - eauto.
  - destruct (tally_total field_name item b0 Hi) as [b1 ->]. simpl. apply IH.
Qed.

Lemma tally_not_counted field_name b item :
  counted field_name item = false →
  tally strptime float_of_str field_name b item = Ok b.
Proof. unfold counted, tally. by intros ->. Qed.

Lemma truthy_JStr s : s ≠ "" → truthy (JStr s) = true.
Proof. intros H. simpl. by rewrite bool_decide_eq_false_2. Qed.

Lemma tally_contributes field_name b item s t q :
  truthy (item_value field_name item) = true →
  py_eq_str (state item) "CLOSED" = true →
  closed_at item = JStr s → s ≠ "" → strptime s = Some t →
  py_float float_of_str (item_value field_name item) = Ok q →
  tally strptime float_of_str field_name b item
  = Ok (<[dt_date t := (default 0 (b !! dt_date t) + q)%Qc]> b).
Proof.
  intros Hv Hs Hc Hne Ht Hq. unfold tally.
  rewrite Hv, Hs, Hc, (truthy_JStr s Hne). simpl. rewrite Ht. simpl.
  by rewrite Hq.
Qed.

(** C1. The bucket [calculate_by_date] returns is the bucket of the
    contributions the specification describes ([spec_contribution]): only
    items whose state is [CLOSED] and whose closure timestamp is present
    contribute, on the date of that timestamp, 1 without a field name and
    the numeric value of the named field with one, and nothing when the
    field is missing or falsy. It returns a bucket whenever the timestamps
    and values of the contributing items can be converted. Turn by turn: an
    item that is not [CLOSED], has no timestamp, or misses the named field
    or has it falsy leaves the bucket as it is; any other item adds 1, or
    the value of the field, to the entry of its closure date. *)
Theorem calculate_by_date_contributions (items : list pitem)
    (field_name : option string) :
  (∀ b, calculate_by_date strptime float_of_str items field_name = Ok b →
     ∀ d, b !! d
          = spec_bucket (omap (spec_contribution strptime float_of_str field_name) items) d) ∧
  (Forall (convertible strptime float_of_str field_name) items →
     ∃ b, calculate_by_date strptime float_of_str items field_name = Ok b) ∧
  (∀ b item,
     py_eq_str (state item) "CLOSED" = false ∨ truthy (closed_at item) = false ∨
     (∃ f, field_name = Some f ∧
           (fields item !! KStr f = None ∨
            ∃ v, fields item !! KStr f = Some v ∧ truthy v = false)) →
     tally strptime float_of_str field_name b item = Ok b) ∧
  (∀ b item s t,
     py_eq_str (state item) "CLOSED" = true →
     closed_at item = JStr s → s ≠ "" → strptime s = Some t →
     tally strptime float_of_str None b item
     = Ok (<[dt_date t := (default 0 (b !! dt_date t) + 1)%Qc]> b)) ∧
  (∀ b item s t f v q,
     py_eq_str (state item) "CLOSED" = true →
     closed_at item = JStr s → s ≠ "" → strptime s = Some t →
     fields item !! KStr f = Some v → truthy v = true →
     py_float float_of_str v = Ok q →
     tally strptime float_of_str (Some f) b item
     = Ok (<[dt_date t := (default 0 (b !! dt_date t) + q)%Qc]> b)).
Proof.
  split_and!.
  - intros b H d. rewrite (tally_all _ _ _ _ H d), lookup_empty.
    apply accumulate_None.
  - apply tally_all_total.
  - intros b item H. apply tally_not_counted. unfold counted.
    destruct H as [->|[->|(f & -> & H)]].
    + by rewrite andb_false_r.
    + by rewrite andb_false_r.
    + unfold item_value.
      destruct H as [->|(v & -> & Hv)]; simpl default;
        [by rewrite truthy_zero|by rewrite Hv].
  - intros b item s t Hs Hc Hne Ht.
    by apply (tally_contributes None b item s t 1%Qc).
  - intros b item s t f v q Hs Hc Hne Ht Hf Hv Hq.
    apply (tally_contributes (Some f) b item s t q); try done;
      unfold item_value; by rewrite Hf.
Qed.

Lemma tally_none_counted field_name items b :
  Forall (λ item, counted field_name item = false) items →
  for_each (tally strptime float_of_str field_name) b items = Ok b.
Proof.
  induction 1 as [|item items Hi _ IH]; simpl; [done|].
  by rewrite tally_not_counted.
Qed.

Lemma tally_malformed field_name b item s :
  counted field_name item = true → closed_at item = JStr s →
  strptime s = None →
  tally strptime float_of_str field_name b item = Raise FormatError.
Proof.
  unfold counted, tally. intros -> -> Hs. simpl. by rewrite Hs.
Qed.

Lemma tally_malformed_somewhere field_name items b item s :
  item ∈ items → counted field_name item = true →
  closed_at item = JStr s → strptime s = None →
  ∃ e, for_each (tally strptime float_of_str field_name) b items = Raise e.
Proof.
  intros Hin Hc Hs Hp. revert b.
  induction items as [|x items IH]; intros b; [by apply elem_of_nil in Hin|].
  simpl. apply elem_of_cons in Hin as [<-|Hin].
  - rewrite (tally_malformed _ _ _ _ Hc Hs Hp). simpl. eauto.
  - destruct (tally _ _ _ _ _) as [b'|e]; simpl; [by apply IH|eauto].
Qed.

(** C6, amended. [calculate_by_date] fails whenever some item that gets to
    contribute (truthy value, state exactly [CLOSED], closure timestamp
    present) has a timestamp that does not match the format, with a
    FormatError when the items before it are processed without error; the
    timestamps of the other items are never parsed, so a sequence in which
    no item gets to contribute gives the empty bucket whatever its
    timestamps are. *)
Theorem calculate_by_date_malformed (items : list pitem)
    (field_name : option string) :
  (∀ item s, item ∈ items → counted field_name item = true →
     closed_at item = JStr s → strptime s = None →
     ∃ e, calculate_by_date strptime float_of_str items field_name = Raise e) ∧
  (∀ pre item post b s, items = pre ++ item :: post →
     calculate_by_date strptime float_of_str pre field_name = Ok b →
     counted field_name item = true →
     closed_at item = JStr s → strptime s = None →
     calculate_by_date strptime float_of_str items field_name = Raise FormatError) ∧
  (Forall (λ item, counted field_name item = false) items →
     calculate_by_date strptime float_of_str items field_name = Ok ∅).
Proof.
  split_and!.
  - intros item s. apply tally_malformed_somewhere.
  - intros pre item post b s -> Hpre Hc Hs Hp.
    apply (for_each_Raise _ _ _ _ _ _ _ Hpre).
    by apply (tally_malformed _ _ _ s).
  - apply tally_none_counted.
Qed.

Lemma not_closed_not_counted field_name item :
  py_eq_str (state item) "CLOSED" = false → counted field_name item = false.
Proof. unfold counted. intros ->. by rewrite andb_false_r. Qed.

Lemma burn_down_monotone b T ds :
  (∀ d v, b !! d = Some v → (0 ≤ v)%Qc) →
  (∀ x, burn_down b T ds !! 0 = Some x → (x ≤ T)%Qc) ∧
  (∀ (i : nat) x y, burn_down b T ds !! i = Some x →
     burn_down b T ds !! S i = Some y → (y ≤ x)%Qc).
Proof.
  intros Hb.
  assert (Hc : ∀ t, (0 ≤ completed_on b t)%Qc).
  { intros t. unfold completed_on.
    destruct (b !! dt_date t) as [v|] eqn:E; simpl; [by eapply Hb|done]. }
  revert T. induction ds as [|t ds IH]; intros T; simpl; [done|].
  fold (completed_on b t).
  destruct (IH (T - completed_on b t)%Qc) as [IH0 IHS]. split.
  - intros x Hx. assert (x = T - completed_on b t)%Qc as -> by congruence.
    apply Qc_sub_nonneg_le, Hc.
  - intros [|i] x y; simpl.
    + intros Hx Hy. assert (x = T - completed_on b t)%Qc as -> by congruence.
      by apply IH0.
    + apply IHS.
Qed.

Lemma burn_down_flat T ds : burn_down ∅ T ds = replicate (length ds) T.
Proof.
  induction ds as [|t ds IH]; simpl; [done|].
  rewrite lookup_empty. simpl.
  assert (T - 0 = T)%Qc as -> by ring. by rewrite IH.
Qed.

(** C9. For a bucket whose values are all non-negative the actual
    trajectory never rises: its first point is at most the total and every
    later point at most the point before it. For the empty bucket, which is
    what [calculate_by_date] returns on a sequence with no closed item, the
    trajectory is the starting total at every enumerated date. *)
Theorem actual_burndown_monotone_flat (closed_per_day : gmap Z Qc)
    (start_date end_date : datetime) (total_value : Qc)
    (items : list pitem) (field_name : option string) :
  ((∀ d v, closed_per_day !! d = Some v → (0 ≤ v)%Qc) →
   let actual := actual_burndown
     (generate_burndown_chart closed_per_day start_date end_date total_value) in
   (∀ x, actual !! 0 = Some x → (x ≤ total_value)%Qc) ∧
   (∀ (i : nat) x y, actual !! i = Some x → actual !! S i = Some y → (y ≤ x)%Qc)) ∧
  (Forall (λ item, py_eq_str (state item) "CLOSED" = false) items →
   calculate_by_date strptime float_of_str items field_name = Ok ∅) ∧
  actual_burndown (generate_burndown_chart ∅ start_date end_date total_value)
  = replicate (days_enumerated start_date end_date) total_value.
Proof.
  split_and!.
  - intros Hb actual. by apply burn_down_monotone.
  - intros H. apply tally_none_counted.
    eapply Forall_impl; [exact H|]. intros item. apply not_closed_not_counted.
  - simpl. rewrite burn_down_flat. f_equal.
    apply (date_range_length ∅ start_date end_date total_value).
Qed.

End AggregatorProps.

(** * The properties at written-out inputs *)



(** C5 as stated fails: with an empty text and the number 7 on one entry,
    the text is present, yet the mapping holds the number. *)
Lemma empty_text_loses_to_number :
  process_items [empty_text_item] "Sprint 4"
  = Ok [PItem (JStr "No Title") (JStr "Unknown") JNull
              {[KStr "Estimate" := JNum (of_Z 7)]}] ∧
  item_entries empty_text_item = Ok [JDict empty_text_entry] ∧
  dict_lookup "text" empty_text_entry = Some (JStr "") ∧
  text_else_number empty_text_entry = JStr "" ∧
  JNum (of_Z 7) ≠ text_else_number empty_text_entry.
Proof. by split_and!. Qed.

(** C5, amended, at the number entry of [sample_item]. *)
Lemma process_items_field_value_witness :
  ∃ r, process_items [sample_item; bare_item] "Sprint 4" = Ok [r; PItem (JStr "No Title") (JStr "Unknown") JNull ∅] ∧
       fields r !! KStr "Estimate" = Some (JNum (of_Z 3)) ∧
       fields r !! KStr "Area" = Some (JStr "backend").
Proof.
  eexists. split; [reflexivity|]. split.
  - refine (proj1 (process_items_field_value [sample_item; bare_item] "Sprint 4"
      _ 0 sample_item _ [JDict area_entry; JDict []] [JDict orphan_entry]
      estimate_entry (KStr "Estimate") eq_refl eq_refl eq_refl eq_refl eq_refl _)).
    by repeat constructor.
  - refine (proj2 (process_items_field_value [sample_item; bare_item] "Sprint 4"
      _ 0 sample_item _ [] [JDict []; JDict estimate_entry; JDict orphan_entry]
      area_entry (KStr "Area") eq_refl eq_refl eq_refl eq_refl eq_refl _) _).
    + by repeat constructor.
    + by intros text [= <-].
Defined.

(** C1 at [sample_items]: the count, and the sum of the estimates, with the
    zero estimate, the open item and the missing estimate adding nothing. *)
Lemma calculate_by_date_contributions_witness :
  Forall (convertible strptime_strict float_of_digits (Some "Estimate")) sample_items ∧
  ∃ b, calculate_by_date strptime_strict float_of_digits sample_items (Some "Estimate")
       = Ok b ∧
       b !! ymd 2025 1 13 = Some (of_Z 3) ∧ b !! ymd 2025 1 14 = None.
Proof.
  assert (Hconv : Forall (convertible strptime_strict float_of_digits (Some "Estimate"))
                         sample_items).
  { unfold sample_items.
    repeat (apply List.Forall_cons;
              [intros H1 H2 H3; try discriminate; split; by eexists|]).
    apply List.Forall_nil. }
  split; [exact Hconv|].
  destruct (calculate_by_date_contributions strptime_strict float_of_digits
              sample_items (Some "Estimate")) as (Hbucket & Htotal & _).
  destruct (Htotal Hconv) as [b Hb]. exists b.
  split; [exact Hb|]. split; rewrite (Hbucket b Hb); reflexivity.
Defined.

(** C6 as stated fails: the timestamp ["13/01/2025"] is present and not in
    the format, on an open item and on a closed item without estimate, and
    the function returns the empty bucket. *)
Lemma garbled_timestamp_not_parsed :
  truthy (closed_at open_garbled) = true ∧
  closed_at open_garbled = JStr "13/01/2025" ∧
  closed_at done_plain_garbled = JStr "13/01/2025" ∧
  strptime_strict "13/01/2025" = None ∧
  calculate_by_date strptime_strict float_of_digits [open_garbled] None = Ok ∅ ∧
  calculate_by_date strptime_strict float_of_digits [done_plain_garbled]
    (Some "Estimate") = Ok ∅.
Proof. by split_and!. Qed.

(** C6, amended, at a closed item with a garbled timestamp after a good
    one. *)
Lemma calculate_by_date_malformed_witness :
  counted (Some "Estimate") done_3_garbled = true ∧
  strptime_strict "13/01/2025" = None ∧
  calculate_by_date strptime_strict float_of_digits
    [done_3; done_3_garbled; open_5] (Some "Estimate") = Raise FormatError.
Proof.
  split; [reflexivity|]. split; [reflexivity|].
  destruct (calculate_by_date_malformed strptime_strict float_of_digits
              [done_3; done_3_garbled; open_5] (Some "Estimate")) as (_ & H & _).
  exact (H [done_3] done_3_garbled [open_5] _ "13/01/2025"
           eq_refl eq_refl eq_refl eq_refl eq_refl).
Defined.

Lemma scenario_bucket_nonneg d v : scenario_bucket !! d = Some v → (0 ≤ v)%Qc.
Proof.
  unfold scenario_bucket. intros H.
  apply lookup_insert_Some in H as [[_ <-]|[_ H]]; [done|].
  apply lookup_insert_Some in H as [[_ <-]|[_ H]]; [done|].
  by rewrite lookup_empty in H.
Defined.

(** C9 at the bucket of the scenario and at a sequence with no closed
    item. *)
Lemma actual_burndown_monotone_flat_witness :
  (∀ d v, scenario_bucket !! d = Some v → (0 ≤ v)%Qc) ∧
  (of_Z 3 ≤ of_Z 5)%Qc ∧
  calculate_by_date strptime_strict float_of_digits [open_5; open_garbled] None = Ok ∅.
Proof.
  split; [exact scenario_bucket_nonneg|].
  destruct (actual_burndown_monotone_flat strptime_strict float_of_digits
              scenario_bucket (jan_2025 12) (jan_2025 14) (of_Z 5)
              [open_5; open_garbled] None) as (Hmono & Hempty & _).
  split.
  - exact (proj2 (Hmono scenario_bucket_nonneg) 0 (of_Z 5) (of_Z 3) eq_refl eq_refl).
  - apply Hempty. by repeat constructor.
Defined.

(** C7 at a response with errors, a response with neither errors nor data,
    and a response whose only project has the title in another case. *)
Lemma fetch_page_checks_in_order_witness :
  fetch_project_items "PaletteProject" "Palette" [Body (JDict errors_response); Body page_one]
  = Run (Some (Raise ProtocolError)) [Request "PaletteProject" JNull] [Body page_one] ∧
  fetch_project_items "PaletteProject" "Palette" [Body (JDict message_response)]
  = Run (Some (Raise SchemaError)) [Request "PaletteProject" JNull] [] ∧
  fetch_project_items "PaletteProject" "Palette"
    [Body (response [project_node "palette" [] false JNull])]
  = Run (Some (Raise NotFoundError)) [Request "PaletteProject" JNull] [].
Proof.
  split_and!.
  - refine (proj1 (fetch_page_checks_in_order "PaletteProject" "Palette"
                     errors_response [Body page_one] JNull []) _).
    by eexists.
  - exact (proj1 (proj2 (fetch_page_checks_in_order "PaletteProject" "Palette"
                           message_response [] JNull [])) eq_refl eq_refl).
  - refine (proj2 (proj2 (fetch_page_checks_in_order "PaletteProject" "Palette"
                            (response_fields [project_node "palette" [] false JNull])
                            [] JNull [])) eq_refl
                  [project_node "palette" [] false JNull] eq_refl _).
    apply List.Forall_cons; [|apply List.Forall_nil].
    exists (JStr "palette"). by split.
Defined.

Lemma page_one_is_page :
  is_page "Palette" (Page page_one [sample_item; bare_item] (JStr "Y3Vyc29yOjI=")).
Proof.
  exists [project_node "palette" [JStr "x"] true (JStr "Zm9v")],
         (project_node "Palette" [sample_item; bare_item] true (JStr "Y3Vyc29yOjI=")),
         [], (JBool true).
  split_and!; try reflexivity.
  apply List.Forall_cons; [|apply List.Forall_nil].
  exists (JStr "palette"). by split.
Defined.

Lemma page_two_is_last :
  page_of "Palette" page_two [empty_text_item] None.
Proof.
  exists [project_node "palette" [] false JNull],
         (project_node "Palette" [empty_text_item] false JNull),
         [], (JBool false).
  split_and!; try reflexivity.
  apply List.Forall_cons; [|apply List.Forall_nil].
  exists (JStr "palette"). by split.
Defined.

(** C8 at two pages, each listing a project titled ["palette"] before the
    one titled ["Palette"], with a reply left over. *)
Lemma fetch_project_items_all_pages_witness :
  fetch_project_items "PaletteProject" "Palette"
    [Body page_one; Body page_two; BadStatus]
  = Run (Some (Ok [sample_item; bare_item; empty_text_item]))
        [Request "PaletteProject" JNull;
         Request "PaletteProject" (JStr "Y3Vyc29yOjI=")]
        [BadStatus].
Proof.
  refine (fetch_project_items_all_pages "PaletteProject" "Palette"
            [Page page_one [sample_item; bare_item] (JStr "Y3Vyc29yOjI=")]
            page_two [empty_text_item] [BadStatus] _ page_two_is_last).
  apply List.Forall_cons; [exact page_one_is_page|apply List.Forall_nil].
Defined.

(** C2 at the scenario: the entry of 2025-01-15 lies outside the range, and
    the bucket without it gives the same trajectory. *)
Lemma actual_burndown_running_remainder_witness :
  actual_burndown
    (generate_burndown_chart {[ymd 2025 1 13 := of_Z 2]}
       (jan_2025 12) (jan_2025 14) (of_Z 5))
  = actual_burndown
      (generate_burndown_chart scenario_bucket (jan_2025 12) (jan_2025 14) (of_Z 5)).
Proof.
  refine (proj1 (proj2 (proj2 (proj2 (proj2 (proj2 (proj2
    (actual_burndown_running_remainder scenario_bucket
       (jan_2025 12) (jan_2025 14) (of_Z 5)))))))) _ _).
  intros t Ht.
  change (t ∈ [jan_2025 12; jan_2025 13; jan_2025 14]) in Ht.
  rewrite !elem_of_cons, elem_of_nil in Ht.
  destruct Ht as [->|[->|[->|[]]]]; reflexivity.
Defined.



(** * Further properties *)

(** ** [fetch_project_items] *)

(** The items gathered so far are only ever extended: a turn from [acc] is
    the turn from the empty accumulator with [acc] put in front. *)
Lemma fetch_page_acc project_title acc r :
  fetch_page project_title acc r
  = res ← fetch_page project_title [] r; Ok (acc ++ res.1, res.2).
Proof.
  unfold fetch_page. destruct r as [| |data]; try done. simpl.
  destruct (py_contains "errors" data) as [[]|]; simpl; try done.
  { by destruct (py_getitem data "errors"). }
  destruct (py_contains "data" data) as [[]|]; simpl; try done.
  destruct (py_getitem data "data") as [envelope|]; simpl; [|done].
  destruct (py_getitem envelope "organization") as [organization|]; simpl; [|done].
  destruct (py_getitem organization "projectsV2") as [projects_v2|]; simpl; [|done].
  destruct (py_getitem projects_v2 "nodes") as [projects|]; simpl; [|done].
  destruct (py_iter projects) as [candidates|]; simpl; [|done].
  destruct (find_project project_title candidates) as [[project|]|]; simpl; try done.
  destruct (truthy project); simpl; [|done].
  destruct (py_getitem project "items") as [project_items|]; simpl; [|done].
  destruct (py_getitem project_items "nodes") as [nodes|]; simpl; [|done].
  destruct (py_iter nodes) as [new_items|]; simpl; [|done].
  destruct (py_getitem project_items "pageInfo") as [page_info|]; simpl; [|done].
  destruct (py_getitem page_info "hasNextPage") as [has_next|]; simpl; [|done].
  destruct (truthy has_next); simpl; [|done].
  by destruct (py_getitem page_info "endCursor").
Qed.

Lemma fetch_page_Raise_acc project_title acc acc' r e :
  fetch_page project_title acc r = Raise e →
  fetch_page project_title acc' r = Raise e.
Proof.
  rewrite (fetch_page_acc _ acc), (fetch_page_acc _ acc').
  by destruct (fetch_page project_title [] r).
Qed.

Lemma fetch_loop_failing_page org project_title more r e rest cursor acc :
  Forall (is_page project_title) more →
  fetch_page project_title [] r = Raise e →
  fetch_loop org project_title
    ((Body <$> (page_data <$> more)) ++ r :: rest) cursor acc
  = Run (Some (Raise e)) (Request org <$> (cursor :: (page_cursor <$> more))) rest.
Proof.
  intros Hmore Hr. revert cursor acc.
  induction Hmore as [|[data items c] more Hp _ IH]; intros cursor acc.
  - cbn [fmap list_fmap app fetch_loop].
    by rewrite (fetch_page_Raise_acc _ [] acc _ _ Hr).
  - unfold is_page in Hp.
    cbn [fmap list_fmap app fetch_loop page_data page_items page_cursor] in *.
    by rewrite (fetch_page_page_of _ _ _ _ _ Hp), IH.
Qed.

(** X1. A reply that fails after any number of pages ends the run with its
    exception: the items of the pages before it are not returned, and no
    request follows. *)
Theorem fetch_project_items_failing_page (org project_title : string)
    (more : list page) (r : reply) (e : exn) (rest : list reply) :
  Forall (is_page project_title) more →
  fetch_page project_title [] r = Raise e →
  fetch_project_items org project_title
    ((Body <$> (page_data <$> more)) ++ r :: rest)
  = Run (Some (Raise e)) (Request org <$> (JNull :: (page_cursor <$> more))) rest.
Proof. intros Hmore Hr. by apply fetch_loop_failing_page. Qed.

Lemma fetch_loop_starved org project_title more cursor acc :
  Forall (is_page project_title) more →
  fetch_loop org project_title (Body <$> (page_data <$> more)) cursor acc
  = Run None (Request org <$> (cursor :: (page_cursor <$> more))) [].
Proof.
  intros Hmore. revert cursor acc.
  induction Hmore as [|[data items c] more Hp _ IH]; intros cursor acc; [done|].
  unfold is_page in Hp.
  cbn [fmap list_fmap fetch_loop page_data page_items page_cursor] in *.
  by rewrite (fetch_page_page_of _ _ _ _ _ Hp), IH.
Qed.

(** X2. The loop has no bound of its own: as long as every page reports a
    next page it keeps asking, so against replies that all do it has not
    returned when they run out, having sent one request more than it got
    replies. *)
Theorem fetch_project_items_keeps_asking (org project_title : string)
    (more : list page) :
  Forall (is_page project_title) more →
  fetch_project_items org project_title (Body <$> (page_data <$> more))
  = Run None (Request org <$> (JNull :: (page_cursor <$> more))) [].
Proof. apply fetch_loop_starved. Qed.

Lemma fetch_loop_requests org project_title replies cursor acc :
  let r := fetch_loop org project_title replies cursor acc in
  (∃ later, requests r = Request org cursor :: later) ∧
  Forall (λ q, req_org q = org) (requests r) ∧
  (∃ used, replies = used ++ unread r ∧
           length (requests r)
           = length used + (if outcome r is None then 1 else 0)).
Proof.
  revert cursor acc. induction replies as [|x replies IH]; intros cursor acc.
  - simpl. split_and!; [by eexists|by repeat constructor|by exists []].
  - cbn [fetch_loop].
    destruct (fetch_page project_title acc x) as [[acc' [c|]]|e].
    + destruct (IH c acc') as ([later Hl] & Horg & used & Hu & Hlen).
      cbn [after_request requests outcome unread]. split_and!.
      * by eexists.
      * by constructor.
      * exists (x :: used). split; [by rewrite Hu at 1|]. simpl. by rewrite Hlen.
    + simpl. split_and!; [by eexists|by repeat constructor|by exists [x]].
    + simpl. split_and!; [by eexists|by repeat constructor|by exists [x]].
Qed.

(** X3. Whatever the replies, the requests sent start with one carrying a
    null cursor, all carry the organization given, and there is one request
    per reply read, plus one that is left unanswered when the replies run
    out; the replies not read are the ones after those read. *)
Theorem fetch_project_items_requests (org project_title : string)
    (replies : list reply) :
  let r := fetch_project_items org project_title replies in
  (∃ later, requests r = Request org JNull :: later) ∧
  Forall (λ q, req_org q = org) (requests r) ∧
  (∃ used, replies = used ++ unread r ∧
           length (requests r)
           = length used + (if outcome r is None then 1 else 0)).
Proof. apply fetch_loop_requests. Qed.

Lemma fetch_page_not_object project_title acc data :
  is_dict data = false →
  fetch_page project_title acc (Body data) = Raise TypeError ∨
  fetch_page project_title acc (Body data) = Raise SchemaError.
Proof.
  unfold fetch_page.
  destruct data as [| | |s|l|]; try done; intros _; simpl; try by left.
  - destruct (is_substring "errors" s); simpl; [by left|].
    destruct (is_substring "data" s); simpl; [by left|by right].
  - destruct (existsb _ l); simpl; [by left|].
    destruct (existsb _ l); simpl; [by left|by right].
Qed.

(** X4. A body that is not a JSON object never yields items and is never
    reported as a ProtocolError: the run ends at that turn with a TypeError
    or a SchemaError, also for a list or a string that contains ["errors"]. *)
Theorem fetch_loop_not_object (org project_title : string) (data : json)
    (rest : list reply) (cursor : json) (all_items : list json) :
  is_dict data = false →
  ∃ e, fetch_loop org project_title (Body data :: rest) cursor all_items
       = Run (Some (Raise e)) [Request org cursor] rest ∧
       (e = TypeError ∨ e = SchemaError).
Proof.
  intros H. cbn [fetch_loop].
  destruct (fetch_page_not_object project_title all_items data H) as [-> | ->];
    eexists; split; eauto.
Qed.

Lemma find_project_untitled project_title before p after :
  Forall (titled_other project_title) before →
  dict_lookup "title" p = None →
  find_project project_title (before ++ JDict p :: after) = Raise (KeyError "title").
Proof.
  intros Hb Hp.
  induction Hb as [|x xs (t & Hx%path_one & Hne) _ IH]; simpl.
  - by rewrite Hp.
  - by rewrite Hx; simpl; rewrite Hne.
Qed.

(** X5. The projects are searched in order and each one searched must have
    a title: a project object without one, met before any project of the
    requested title, ends the run with [KeyError("title")], whatever
    comes after it in the list. *)
Theorem fetch_loop_untitled_project (org project_title : string)
    (d : list (string * json)) (before after : list json)
    (p : list (string * json)) (rest : list reply) (cursor : json)
    (all_items : list json) :
  dict_lookup "errors" d = None →
  path projects_path (JDict d) = Some (JList (before ++ JDict p :: after)) →
  Forall (titled_other project_title) before →
  dict_lookup "title" p = None →
  fetch_loop org project_title (Body (JDict d) :: rest) cursor all_items
  = Run (Some (Raise (KeyError "title"))) [Request org cursor] rest.
Proof.
  intros He Hp Hb Ht. cbn [fetch_loop].
  assert (fetch_page project_title all_items (Body (JDict d))
          = Raise (KeyError "title")) as ->; [|done].
  unfold fetch_page. simpl. rewrite He.
  apply path_cons in Hp as (envelope & H1 & Hp).
  apply path_cons in Hp as (organization & H2 & Hp).
  apply path_cons in Hp as (projects_v2 & H3 & Hp).
  apply path_one in Hp. simpl in H1.
  destruct (dict_lookup "data" d) as [x|]; [|done]. injection H1 as ->.
  simpl. rewrite H2. simpl. rewrite H3. simpl. rewrite Hp. simpl.
  by rewrite find_project_untitled.
Qed.

(** ** [process_items] *)

Lemma process_items_acc acc items :
  for_each (λ processed_items item,
              r ← process_item item; Ok (processed_items ++ [r])) acc items
  = out ← for_each (λ processed_items item,
              r ← process_item item; Ok (processed_items ++ [r])) [] items;
    Ok (acc ++ out).
Proof.
  revert acc. induction items as [|item items IH]; intros acc; simpl.
  - by rewrite app_nil_r.
  - destruct (process_item item) as [r|e]; simpl; [|done].
    rewrite (IH (acc ++ [r])), (IH [r]).
    destruct (for_each _ [] items) as [out|e]; simpl; [|done].
    by rewrite <- app_assoc.
Qed.

(** X6. Processing a concatenation is processing the two parts one after
    the other and concatenating the records, with the exception of the first
    part if it raises and else that of the second. *)
Theorem process_items_app (items1 items2 : list json) (milestone_name : string) :
  process_items (items1 ++ items2) milestone_name
  = out1 ← process_items items1 milestone_name;
    out2 ← process_items items2 milestone_name;
    Ok (out1 ++ out2).
Proof.
  unfold process_items. rewrite for_each_app.
  destruct (for_each _ [] items1) as [out1|e]; simpl; [|done].
  apply process_items_acc.
Qed.

Lemma process_item_bad_content d c :
  raw_field_values (JDict d) = true →
  dict_lookup "content" d = Some c → is_dict c = false →
  process_item (JDict d) = Raise AttributeError.
Proof.
  unfold process_item. simpl. intros Hfv Hc Hd.
  destruct (default (JDict []) (dict_lookup "fieldValues" d)) as [| | | | |fv];
    try done. simpl.
  destruct (default (JList []) (dict_lookup "nodes" fv)) as [| | | |entries|];
    try done. simpl.
  destruct (process_fields_total entries ∅ Hfv) as [fs ->]. simpl.
  rewrite Hc. simpl. by destruct c.
Qed.

(** X7. An item whose ["content"] is there but is not an object (null, for
    one) makes the whole call raise an AttributeError: no record is
    returned, neither for the items before it nor for those after it. *)
Theorem process_items_bad_content (pre post : list json)
    (d : list (string * json)) (c : json) (milestone_name : string) :
  Forall (λ item, raw_item item = true) pre →
  raw_field_values (JDict d) = true →
  dict_lookup "content" d = Some c → is_dict c = false →
  process_items (pre ++ JDict d :: post) milestone_name = Raise AttributeError.
Proof.
  intros Hpre Hfv Hc Hd. unfold process_items.
  destruct (process_items_total pre [] Hpre) as [out Hout].
  apply (for_each_Raise _ _ _ _ _ _ _ Hout).
  by rewrite (process_item_bad_content d c).
Qed.

Lemma process_field_keeps fs field fs' k :
  process_field fs field = Ok fs' → is_Some (fs !! k) → is_Some (fs' !! k).
Proof.
  intros H Hk.
  destruct (process_field_Ok _ _ _ H) as [[_ ->]|(d & k' & _ & _ & ->)]; [done|].
  destruct (decide (k' = k)) as [->|Hne].
  - rewrite lookup_insert_eq. eauto.
  - by rewrite lookup_insert_ne.
Qed.

Lemma process_fields_keeps entries fs fs' k :
  for_each process_field fs entries = Ok fs' →
  is_Some (fs !! k) → is_Some (fs' !! k).
Proof.
  revert fs. induction entries as [|e entries IH]; intros fs; simpl.
  - by intros [= <-].
  - intros (fs1 & H1 & H2)%bind_Ok Hk.
    eapply IH; [done|]. by eapply process_field_keeps.
Qed.

Lemma process_fields_bound entries fs fs' k e :
  for_each process_field fs entries = Ok fs' →
  e ∈ entries → entry_key e = Some k → is_Some (fs' !! k).
Proof.
  revert fs. induction entries as [|x entries IH]; intros fs; simpl.
  - by intros _ ?%elem_of_nil.
  - intros (fs1 & H1 & H2)%bind_Ok [->|Hin]%elem_of_cons Hk.
    + eapply process_fields_keeps; [done|].
      destruct (process_field_Ok _ _ _ H1) as [[Hn _]|(d & k' & _ & Hk' & ->)];
        [congruence|].
      assert (k' = k) as -> by congruence. rewrite lookup_insert_eq. eauto.
    + by eapply IH.
Qed.

Lemma process_fields_origin entries fs fs' k v :
  for_each process_field fs entries = Ok fs' →
  fs' !! k = Some v →
  fs !! k = Some v ∨
  ∃ d, JDict d ∈ entries ∧ entry_key (JDict d) = Some k ∧
       v = truthy_text_else_number d.
Proof.
  revert fs. induction entries as [|x entries IH]; intros fs; simpl.
  - intros [= <-]. by left.
  - intros (fs1 & H1 & H2)%bind_Ok Hv.
    destruct (IH _ H2 Hv) as [Hfs1|(d & Hin & Hk & ->)].
    + destruct (process_field_Ok _ _ _ H1) as [[_ ->]|(d & k' & -> & Hk' & ->)];
        [by left|].
      destruct (decide (k' = k)) as [->|Hne].
      * rewrite lookup_insert_eq in Hfs1. injection Hfs1 as <-.
        right. exists d. split_and!; [by left|done|done].
      * rewrite lookup_insert_ne in Hfs1 by done. by left.
    + right. exists d. split_and!; [by right|done|done].
Qed.

(** X8. The mapping of a record holds exactly the names of the entries that
    carry metadata, and under each name the value of one of the entries of
    that name: nothing comes from an entry without metadata, and no entry
    with metadata is left out. *)
Theorem process_item_fields_from_entries (item : json) (r : pitem)
    (entries : list json) (k : key) :
  process_item item = Ok r → item_entries item = Ok entries →
  (is_Some (fields r !! k) ↔ ∃ e, e ∈ entries ∧ entry_key e = Some k) ∧
  (∀ v, fields r !! k = Some v →
     ∃ d, JDict d ∈ entries ∧ entry_key (JDict d) = Some k ∧
          v = truthy_text_else_number d).
Proof.
  intros Hr He. pose proof (process_item_fields _ _ _ Hr He) as Hfs.
  assert (Horigin : ∀ v, fields r !! k = Some v →
     ∃ d, JDict d ∈ entries ∧ entry_key (JDict d) = Some k ∧
          v = truthy_text_else_number d).
  { intros v Hv.
    destruct (process_fields_origin _ _ _ _ _ Hfs Hv) as [H|H]; [|done].
    by rewrite lookup_empty in H. }
  split; [|done]. split.
  - intros [v Hv]. destruct (Horigin v Hv) as (d & Hin & Hk & _). eauto.
  - intros (e & Hin & Hk). by eapply process_fields_bound.
Qed.

Lemma process_fields_keyed entries fs fs' :
  for_each process_field fs entries = Ok fs' →
  for_each process_field fs (filter (λ e, keyed e = true) entries) = Ok fs'.
Proof.
  revert fs. induction entries as [|x entries IH]; intros fs; simpl; [done|].
  intros (fs1 & H1 & H2)%bind_Ok. rewrite filter_cons.
  destruct (process_field_Ok _ _ _ H1) as [[Hk ->]|(d & k & -> & Hk & Hfs1)].
  - rewrite decide_False by (unfold keyed; by rewrite Hk). by apply IH.
  - rewrite decide_True by (unfold keyed; by rewrite Hk).
    simpl. rewrite H1. simpl. by apply IH.
Qed.

(** X9. Entries without metadata have no effect on the mapping: walking
    only the entries that carry metadata gives the same mapping. *)
Theorem process_item_skipped_entries (item : json) (r : pitem)
    (entries : list json) :
  process_item item = Ok r → item_entries item = Ok entries →
  for_each process_field ∅ (filter (λ e, keyed e = true) entries) = Ok (fields r).
Proof.
  intros Hr He. apply process_fields_keyed. by eapply process_item_fields.
Qed.

(** ** Sums *)

Lemma foldl_Qcplus (a : Qc) (l : list Qc) : foldl Qcplus a l = (a + sumQ l)%Qc.
Proof.
  unfold sumQ. revert a. induction l as [|x l IH]; intros a; simpl.
  - by rewrite Qcplus_0_r.
  - rewrite (IH (a + x)%Qc), (IH (0 + x)%Qc). ring.
Qed.

Lemma sumQ_cons (x : Qc) (l : list Qc) : sumQ (x :: l) = (x + sumQ l)%Qc.
Proof. unfold sumQ at 1. simpl. rewrite foldl_Qcplus. ring. Qed.

Lemma sumQ_app (l1 l2 : list Qc) : sumQ (l1 ++ l2) = (sumQ l1 + sumQ l2)%Qc.
Proof.
  induction l1 as [|x l1 IH]; simpl.
  - unfold sumQ at 2. simpl. by rewrite Qcplus_0_l.
  - rewrite !sumQ_cons, IH. ring.
Qed.

Lemma sumQ_perm (l1 l2 : list Qc) : l1 ≡ₚ l2 → sumQ l1 = sumQ l2.
Proof.
  induction 1 as [|x l1 l2 _ IH|x y l|l1 l2 l3 _ IH1 _ IH2].
  - done.
  - by rewrite !sumQ_cons, IH.
  - rewrite !sumQ_cons. ring.
  - congruence.
Qed.

Lemma sumQ_nonneg (l : list Qc) : Forall (λ x, (0 ≤ x)%Qc) l → (0 ≤ sumQ l)%Qc.
Proof.
  induction 1 as [|x l Hx _ IH]; [done|].
  rewrite sumQ_cons. by apply Qcplus_nonneg_nonneg.
Qed.

Lemma sumQ_pos (l : list Qc) :
  Forall (λ x, (0 < x)%Qc) l → l ≠ [] → (0 < sumQ l)%Qc.
Proof.
  intros H Hne. destruct H as [|x l Hx Hl]; [done|].
  rewrite sumQ_cons. apply Qcplus_pos_nonneg; [done|].
  apply sumQ_nonneg. eapply Forall_impl; [done|]. intros y. apply Qclt_le_weak.
Qed.

Lemma of_Z_add (a b : Z) : of_Z (a + b) = (of_Z a + of_Z b)%Qc.
Proof.
  apply Qc_is_canon. unfold of_Z. simpl.
  by rewrite !Qred_correct, inject_Z_plus.
Qed.

Lemma of_Z_le (a b : Z) : (a ≤ b)%Z → (of_Z a ≤ of_Z b)%Qc.
Proof.
  intros H. unfold of_Z, Qcle. simpl. rewrite !Qred_correct.
  by rewrite <- Zle_Qle.
Qed.

Lemma sumQ_replicate_one (n : nat) : sumQ (replicate n 1%Qc) = of_Z (Z.of_nat n).
Proof.
  induction n as [|n IH]; [done|].
  simpl replicate. rewrite sumQ_cons, IH.
  replace (Z.of_nat (S n)) with (1 + Z.of_nat n)%Z by lia.
  by rewrite of_Z_add.
Qed.

(** ** [calculate_by_date], further *)

Section AggregatorMore.
Variable strptime : string → option datetime.
Variable float_of_str : string → option Qc.

Lemma tally_succeeds_any field_name b b' b0 item :
  tally strptime float_of_str field_name b item = Ok b' →
  ∃ b0', tally strptime float_of_str field_name b0 item = Ok b0'.
Proof.
  unfold tally.
  destruct (truthy _ && _ && _); [|eauto].
  destruct (py_strptime strptime (closed_at item)); simpl; [|done].
  destruct (py_float float_of_str _); simpl; [eauto|done].
Qed.

Lemma tally_all_succeeds_any field_name items b b' b0 :
  for_each (tally strptime float_of_str field_name) b items = Ok b' →
  ∃ b0', for_each (tally strptime float_of_str field_name) b0 items = Ok b0'.
Proof.
  revert b b0. induction items as [|item items IH]; intros b b0; simpl; [eauto|].
  intros (b1 & H1 & H2)%bind_Ok.
  destruct (tally_succeeds_any _ _ _ b0 _ H1) as [b01 ->]. simpl. by eapply IH.
Qed.

Lemma calculate_by_date_lookup field_name items b d :
  calculate_by_date strptime float_of_str items field_name = Ok b →
  b !! d = accumulate None
             (amounts_on d (omap (spec_contribution strptime float_of_str field_name) items)).
Proof. intros H. by rewrite (tally_all _ _ _ _ _ _ H d), lookup_empty. Qed.

Lemma accumulate_sum o amounts :
  accumulate o amounts
  = match o, amounts with
    | None, [] => None
    | _, _ => Some (default 0 o + sumQ amounts)%Qc
    end.
Proof.
  destruct o as [a|]; simpl.
  - rewrite accumulate_Some, foldl_Qcplus. by destruct amounts.
  - destruct amounts as [|v vs]; [done|].
    simpl. rewrite accumulate_Some, foldl_Qcplus, sumQ_cons. f_equal. ring.
Qed.

(** X10. Counting: the bucket of counts of a concatenation is the pointwise
    sum of the buckets of counts of the parts, when both parts can be
    counted. *)
Theorem count_by_date_app (items1 items2 : list pitem)
    (b1 b2 : gmap Z Qc) :
  calculate_by_date strptime float_of_str items1 None = Ok b1 →
  calculate_by_date strptime float_of_str items2 None = Ok b2 →
  calculate_by_date strptime float_of_str (items1 ++ items2) None
  = Ok (bucket_sum b1 b2).
Proof.
  intros H1 H2. unfold calculate_by_date in *. rewrite for_each_app, H1. simpl.
  destruct (tally_all_succeeds_any _ _ _ _ b1 H2) as [b Hb]. rewrite Hb.
  f_equal. apply map_eq. intros d. unfold bucket_sum.
  rewrite lookup_union_with.
  rewrite (tally_all _ _ _ _ _ _ Hb d), (tally_all _ _ _ _ _ _ H2 d), lookup_empty.
  rewrite !accumulate_sum.
  destruct (b1 !! d) as [a|];
    destruct (amounts_on d _) as [|v vs]; simpl; try done;
    f_equal; unfold sumQ; simpl; ring.
Qed.

Lemma tally_all_Forall field_name items b :
  (∃ b', for_each (tally strptime float_of_str field_name) b items = Ok b') ↔
  Forall (λ item, ∃ b', tally strptime float_of_str field_name ∅ item = Ok b') items.
Proof.
  revert b. induction items as [|item items IH]; intros b; simpl.
  - split; [by constructor|eauto].
  - split.
    + intros (b' & (b1 & H1 & H2)%bind_Ok). constructor.
      * by eapply tally_succeeds_any.
      * apply (IH b1). eauto.
    + intros [[b0 H0] Hrest]%Forall_cons.
      destruct (tally_succeeds_any _ _ _ b _ H0) as [b1 ->]. simpl.
      by apply IH.
Qed.

Lemma accumulate_None_perm (l l' : list Qc) :
  l ≡ₚ l' → accumulate None l = accumulate None l'.
Proof.
  intros Hp. rewrite !accumulate_sum.
  destruct l as [|x l].
  - apply Permutation_nil_l in Hp. by subst.
  - destruct l' as [|y l']; [by apply Permutation_nil_r in Hp|].
    by rewrite (sumQ_perm _ _ Hp).
Qed.

(** X11. Counting: the bucket of counts does not depend on the order of
    the items: a reordering of a sequence that can be counted gives the same
    bucket. *)
Theorem count_by_date_reorder (items items' : list pitem)
    (b : gmap Z Qc) :
  items ≡ₚ items' →
  calculate_by_date strptime float_of_str items None = Ok b →
  calculate_by_date strptime float_of_str items' None = Ok b.
Proof.
  intros Hperm H.
  assert (∃ b', calculate_by_date strptime float_of_str items' None = Ok b')
    as [b' H'].
  { apply tally_all_Forall. rewrite <- Hperm. apply (tally_all_Forall _ _ ∅). eauto. }
  rewrite H'. f_equal. apply map_eq. intros d.
  rewrite (calculate_by_date_lookup _ _ _ d H), (calculate_by_date_lookup _ _ _ d H').
  apply accumulate_None_perm. unfold amounts_on. by rewrite Hperm.
Qed.

Lemma count_contribution_Some d item d' v :
  spec_contribution strptime float_of_str None item = Some (d', v) →
  v = 1%Qc ∧ closed_on strptime d item = bool_decide (d' = d).
Proof.
  unfold spec_contribution, closed_on.
  destruct (py_eq_str (state item) "CLOSED" && truthy (closed_at item)); [|done].
  simpl. destruct (closure_date strptime (closed_at item)) as [d''|]; simpl; [|done].
  intros [= -> <-]. split; [done|].
  apply bool_decide_ext. split; congruence.
Qed.

Lemma count_contribution_None d item :
  spec_contribution strptime float_of_str None item = None →
  closed_on strptime d item = false.
Proof.
  unfold spec_contribution, closed_on.
  destruct (py_eq_str (state item) "CLOSED" && truthy (closed_at item)); [|done].
  simpl. by destruct (closure_date strptime (closed_at item)).
Qed.

Lemma count_amounts d items :
  amounts_on d (omap (spec_contribution strptime float_of_str None) items)
  = replicate (length (filter (λ item, closed_on strptime d item = true) items)) 1%Qc.
Proof.
  unfold amounts_on. induction items as [|item items IH]; [done|].
  simpl omap. rewrite (filter_cons _ item).
  destruct (spec_contribution strptime float_of_str None item) as [[d' v]|] eqn:E.
  - destruct (count_contribution_Some d _ _ _ E) as [-> ->].
    rewrite filter_cons. simpl fst.
    destruct (decide (d' = d)) as [->|Hne].
    + rewrite bool_decide_eq_true_2, decide_True by done. simpl. f_equal. exact IH.
    + rewrite bool_decide_eq_false_2, decide_False by done. exact IH.
  - rewrite (count_contribution_None d _ E), decide_False by done. exact IH.
Qed.

(** X12. Without a field name the bucket counts: a date is present exactly
    when some item is [CLOSED] with a closure timestamp on that date, and it
    holds the number of those items. *)
Theorem calculate_by_date_counts (items : list pitem) (b : gmap Z Qc) (d : Z) :
  calculate_by_date strptime float_of_str items None = Ok b →
  let n := length (filter (λ item, closed_on strptime d item = true) items) in
  b !! d = if decide (n = 0) then None else Some (of_Z (Z.of_nat n)).
Proof.
  intros H n. rewrite (calculate_by_date_lookup _ _ _ d H), count_amounts.
  fold n. rewrite accumulate_sum, sumQ_replicate_one.
  destruct n as [|n]; [done|]. simpl replicate. cbn [default].
  rewrite decide_False by done. f_equal. ring.
Qed.

Lemma contribution_value f item d q :
  spec_contribution strptime float_of_str (Some f) item = Some (d, q) →
  ∃ v, fields item !! KStr f = Some v ∧ truthy v = true ∧
       numeric float_of_str v = Some q.
Proof.
  unfold spec_contribution.
  destruct (py_eq_str _ _ && _); [|done]. simpl.
  destruct (fields item !! KStr f) as [v|]; [|done]. simpl.
  destruct (truthy v) eqn:Hv; [|done].
  destruct (numeric float_of_str v) as [q'|] eqn:Hq; [|done]. simpl.
  destruct (closure_date _ _); [|done]. simpl. intros [= _ <-]. eauto.
Qed.

Lemma contribution_count item d q :
  spec_contribution strptime float_of_str None item = Some (d, q) → q = 1%Qc.
Proof.
  unfold spec_contribution.
  destruct (py_eq_str _ _ && _); [|done]. simpl.
  destruct (closure_date _ _); [|done]. simpl. by intros [= _ <-].
Qed.

Lemma numeric_JNum_truthy q' q :
  truthy (JNum q') = true → numeric float_of_str (JNum q') = Some q →
  (0 ≤ q')%Qc → (0 < q)%Qc.
Proof.
  unfold numeric. simpl. intros Hne [= <-] Hle.
  apply Qcle_lt_or_eq in Hle as [Hlt|Heq]; [done|].
  subst. done.
Qed.

Lemma contributions_positive field_name items :
  (∀ item f v, item ∈ items → field_name = Some f →
     fields item !! KStr f = Some v → ∃ q, v = JNum q ∧ (0 ≤ q)%Qc) →
  Forall (λ c, (0 < c.2)%Qc)
         (omap (spec_contribution strptime float_of_str field_name) items).
Proof.
  intros H. apply Forall_forall. intros [d q] Hin.
  apply list_elem_of_omap in Hin as (item & Hitem & Hc).
  destruct field_name as [f|].
  - destruct (contribution_value _ _ _ _ Hc) as (v & Hv & Ht & Hq).
    destruct (H item f v Hitem eq_refl Hv) as (q' & -> & Hle).
    by eapply numeric_JNum_truthy.
  - by rewrite (contribution_count _ _ _ Hc).
Qed.

Lemma bucket_values_positive field_name items b :
  (∀ item f v, item ∈ items → field_name = Some f →
     fields item !! KStr f = Some v → ∃ q, v = JNum q ∧ (0 ≤ q)%Qc) →
  calculate_by_date strptime float_of_str items field_name = Ok b →
  ∀ d v, b !! d = Some v → (0 < v)%Qc.
Proof.
  intros Hvalues H d v.
  rewrite (calculate_by_date_lookup _ _ _ d H), accumulate_sum.
  pose proof (contributions_positive _ _ Hvalues) as Hc.
  assert (Forall (λ x, (0 < x)%Qc)
            (amounts_on d (omap (spec_contribution strptime float_of_str field_name) items)))
    as Ha.
  { apply Forall_forall. intros x Hx. unfold amounts_on in Hx.
    apply list_elem_of_fmap in Hx as ([d' q] & -> & Hin).
    apply list_elem_of_filter in Hin as [_ Hin].
    by apply (proj1 (Forall_forall _ _) Hc (d', q)). }
  destruct (amounts_on d _) as [|x xs] eqn:E; [done|].
  cbn [default]. intros [= <-]. rewrite Qcplus_0_l. by apply sumQ_pos.
Qed.

(** X13. When counting, and when summing a field whose values are all
    numbers that are not negative, every value of the bucket is positive,
    so the actual trajectory drawn from the bucket never rises, over any
    range and from any total. *)
Theorem calculate_by_date_positive (items : list pitem)
    (field_name : option string) (b : gmap Z Qc) :
  (∀ item f v, item ∈ items → field_name = Some f →
     fields item !! KStr f = Some v → ∃ q, v = JNum q ∧ (0 ≤ q)%Qc) →
  calculate_by_date strptime float_of_str items field_name = Ok b →
  (∀ d v, b !! d = Some v → (0 < v)%Qc) ∧
  (∀ start_date end_date total_value,
     never_rises total_value
       (actual_burndown (generate_burndown_chart b start_date end_date total_value))).
Proof.
  intros Hvalues H.
  pose proof (bucket_values_positive _ _ _ Hvalues H) as Hpos.
  split; [done|]. intros start_date end_date total_value.
  apply burn_down_monotone. intros d v Hv. by apply Qclt_le_weak, (Hpos d).
Qed.

(** X14. The timestamp is converted before the value: for an item that gets
    to contribute, after items that were aggregated, a timestamp in the
    format and a text value that is not a number give the [ValueError] of
    [float], and a timestamp not in the format gives a FormatError whatever
    the value is. *)
Theorem calculate_by_date_text_value (pre post : list pitem) (item : pitem)
    (field_name : option string) (b : gmap Z Qc) (s x : string) :
  calculate_by_date strptime float_of_str pre field_name = Ok b →
  counted field_name item = true →
  closed_at item = JStr s →
  item_value field_name item = JStr x → float_of_str x = None →
  calculate_by_date strptime float_of_str (pre ++ item :: post) field_name
  = Raise (if strptime s is Some _ then ValueError NotAFloat else FormatError).
Proof.
  intros Hpre Hc Hs Hx Hf. apply (for_each_Raise _ _ _ _ _ _ _ Hpre).
  unfold counted in Hc. unfold tally. rewrite Hc, Hs. simpl.
  destruct (strptime s); simpl; [|done].
  by rewrite Hx; simpl; rewrite Hf.
Qed.
End AggregatorMore.

(** ** [generate_burndown_chart], further *)

(** The remainder after i + 1 days as the total less a sum, for the exact
    numbers of the model: used below for counts and whole estimates. *)
Lemma burn_down_closed b T ds (i : nat) :
  i < length ds →
  burn_down b T ds !! i
  = Some (T - sumQ (completed_on b <$> take (S i) ds))%Qc.
Proof.
  revert T i. induction ds as [|t ds IH]; intros T i Hi; simpl in Hi; [lia|].
  destruct i as [|i].
  - simpl. unfold sumQ. simpl. f_equal. unfold completed_on. ring.
  - cbn [burn_down lookup list_lookup take fmap list_fmap].
    fold (completed_on b t). rewrite IH by lia.
    change (list_fmap _ _ (completed_on b) (take (S i) ds))
      with (completed_on b <$> take (S i) ds).
    rewrite sumQ_cons. f_equal. ring.
Qed.

(** X18. When the end lies a day or more before the start, nothing is
    enumerated and the three series are empty; the division by the number
    of days is never made. *)
Theorem generate_burndown_chart_reversed (closed_per_day : gmap Z Qc)
    (start_date end_date : datetime) (total_value : Qc) :
  (days_between end_date start_date < 0)%Z →
  generate_burndown_chart closed_per_day start_date end_date total_value
  = Chart [] [] [].
Proof.
  intros H. unfold generate_burndown_chart.
  by rewrite (seqZ_nil 0 (days_between end_date start_date + 1)) by lia.
Qed.

Lemma days_between_time_of_day (s e : datetime) :
  (0 ≤ dt_micros s < day_micros)%Z → (0 ≤ dt_micros e < day_micros)%Z →
  days_between e s
  = (dt_date e - dt_date s - (if (dt_micros e <? dt_micros s)%Z then 1 else 0))%Z.
Proof.
  unfold days_between, day_micros. intros Hs He.
  destruct (dt_micros e <? dt_micros s)%Z eqn:E.
  - apply Z.ltb_lt in E. symmetry. apply (Z.div_unique _ _ _
      (86400 * 1000000 + (dt_micros e - dt_micros s))); lia.
  - apply Z.ltb_ge in E. symmetry.
    apply (Z.div_unique _ _ _ (dt_micros e - dt_micros s)); lia.
Qed.

(** X19. The days are counted from the difference of the two datetimes,
    not of their dates: when the end's time of day is earlier than the
    start's, one day fewer is enumerated and the date of the end is not
    among the days. *)
Theorem days_enumerated_time_of_day (start_date end_date : datetime) :
  (0 ≤ dt_micros start_date < day_micros)%Z →
  (0 ≤ dt_micros end_date < day_micros)%Z →
  days_enumerated start_date end_date
  = Z.to_nat (dt_date end_date - dt_date start_date + 1
              - (if (dt_micros end_date <? dt_micros start_date)%Z then 1 else 0)) ∧
  ((dt_micros end_date < dt_micros start_date)%Z →
   ∀ closed_per_day total_value t,
     t ∈ date_range (generate_burndown_chart closed_per_day start_date end_date
                       total_value) →
     (dt_date t < dt_date end_date)%Z).
Proof.
  intros Hs He. unfold days_enumerated.
  rewrite (days_between_time_of_day _ _ Hs He). split; [f_equal; lia|].
  intros Hlt b T t Ht. simpl in Ht.
  apply list_elem_of_fmap in Ht as (k & -> & Hk).
  apply elem_of_seqZ in Hk.
  rewrite (days_between_time_of_day _ _ Hs He) in Hk.
  rewrite (proj2 (Z.ltb_lt _ _) Hlt) in Hk. simpl. lia.
Qed.

Lemma date_range_dates b s e T :
  dt_date <$> date_range (generate_burndown_chart b s e T)
  = seqZ (dt_date s) (days_between e s + 1).
Proof.
  simpl. rewrite <- list_fmap_compose.
  transitivity (Z.add (dt_date s) <$> seqZ 0 (days_between e s + 1)).
  - by apply list_fmap_ext.
  - by rewrite fmap_add_seqZ, Z.add_0_r.
Qed.

(** X20. The enumerated days are consecutive dates from the date of the
    start, each once, and all carry the start's time of day. *)
Theorem date_range_consecutive (closed_per_day : gmap Z Qc)
    (start_date end_date : datetime) (total_value : Qc) :
  let ch := generate_burndown_chart closed_per_day start_date end_date total_value in
  dt_date <$> date_range ch
  = seqZ (dt_date start_date) (Z.of_nat (days_enumerated start_date end_date)) ∧
  NoDup (dt_date <$> date_range ch) ∧
  Forall (λ t, dt_micros t = dt_micros start_date) (date_range ch).
Proof.
  intros ch. unfold ch. rewrite date_range_dates. split_and!.
  - unfold days_enumerated.
    destruct (decide (0 ≤ days_between end_date start_date + 1)%Z).
    + by rewrite Z2Nat.id.
    + rewrite !seqZ_nil; [done| |lia]. lia.
  - apply NoDup_seqZ.
  - simpl. apply Forall_fmap. by apply Forall_true.
Qed.

(** ** The two passes of [main] *)

Lemma sumQ_fmap_add {A} (f g : A → Qc) (l : list A) :
  sumQ ((λ x, f x + g x)%Qc <$> l) = (sumQ (f <$> l) + sumQ (g <$> l))%Qc.
Proof.
  induction l as [|x l IH]; [done|].
  cbn [fmap list_fmap].
  change (list_fmap A Qc ?h l) with (h <$> l).
  rewrite !sumQ_cons, IH. ring.
Qed.

Lemma sumQ_zero {A} (l : list A) : sumQ ((λ _, 0%Qc) <$> l) = 0%Qc.
Proof.
  induction l as [|x l IH]; [done|].
  cbn [fmap list_fmap]. change (list_fmap A Qc ?h l) with (h <$> l).
  by rewrite sumQ_cons, IH.
Qed.

Lemma sumQ_one_date (d : Z) (v : Qc) (ds : list datetime) :
  NoDup (dt_date <$> ds) → (0 ≤ v)%Qc →
  (sumQ ((λ t, if decide (d = dt_date t) then v else 0%Qc) <$> ds) ≤ v)%Qc.
Proof.
  intros Hnd Hv. induction ds as [|t ds IH]; [exact Hv|].
  cbn [fmap list_fmap] in *.
  change (list_fmap datetime ?B ?h ds) with (h <$> ds) in *.
  apply NoDup_cons in Hnd as [Hnotin Hnd]. rewrite sumQ_cons.
  destruct (decide (d = dt_date t)) as [->|Hne].
  - assert (sumQ ((λ t0, if decide (dt_date t = dt_date t0) then v else 0%Qc) <$> ds)
            = 0%Qc) as ->.
    { transitivity (sumQ ((λ _, 0%Qc) <$> ds)); [|apply sumQ_zero].
      f_equal. apply list_fmap_ext. intros i t' Ht'.
      rewrite decide_False; [done|]. intros Heq. apply Hnotin.
      rewrite Heq. apply list_elem_of_fmap_2. by eapply list_elem_of_lookup_2. }
    by rewrite Qcplus_0_r.
  - rewrite Qcplus_0_l. by apply IH.
Qed.

Lemma amounts_on_cons d d' v cs :
  sumQ (amounts_on d ((d', v) :: cs))
  = ((if decide (d' = d) then v else 0) + sumQ (amounts_on d cs))%Qc.
Proof.
  unfold amounts_on. rewrite filter_cons. simpl.
  destruct (decide (d' = d)); simpl.
  - change (list_fmap ?A ?B ?h ?l) with (h <$> l). by rewrite sumQ_cons.
  - by rewrite Qcplus_0_l.
Qed.

(** Over distinct days, what the days hold together is at most everything
    that was contributed. *)
Lemma amounts_over_days (ds : list datetime) (cs : list (Z * Qc)) :
  NoDup (dt_date <$> ds) → Forall (λ c, (0 ≤ c.2)%Qc) cs →
  (sumQ ((λ t, sumQ (amounts_on (dt_date t) cs)) <$> ds) ≤ sumQ (snd <$> cs))%Qc.
Proof.
  intros Hnd Hcs. induction Hcs as [|[d v] cs Hv _ IH].
  - rewrite (list_fmap_ext _ (λ _, 0%Qc) ds) by done.
    by rewrite sumQ_zero.
  - rewrite (list_fmap_ext _
      (λ t, (if decide (d = dt_date t) then v else 0) + sumQ (amounts_on (dt_date t) cs))%Qc
      ds) by (intros; apply amounts_on_cons).
    rewrite (sumQ_fmap_add (λ t, if decide (d = dt_date t) then v else 0%Qc)
                           (λ t, sumQ (amounts_on (dt_date t) cs))).
    cbn [fmap list_fmap]. change (list_fmap ?A ?B ?h ?l) with (h <$> l).
    rewrite sumQ_cons. apply Qcplus_le_compat; [|done].
    by apply sumQ_one_date.
Qed.

Lemma take_NoDup {A} (l : list A) n : NoDup l → NoDup (take n l).
Proof.
  intros H. rewrite <- (take_drop n l) in H. by apply NoDup_app in H as [H _].
Qed.

Section MainProps.
Variable strptime : string → option datetime.
Variable float_of_str : string → option Qc.

Lemma completed_on_amounts field_name items b t :
  calculate_by_date strptime float_of_str items field_name = Ok b →
  completed_on b t
  = sumQ (amounts_on (dt_date t)
            (omap (spec_contribution strptime float_of_str field_name) items)).
Proof.
  intros H. unfold completed_on.
  rewrite (calculate_by_date_lookup _ _ _ _ _ (dt_date t) H), accumulate_sum.
  destruct (amounts_on _ _); simpl; [done|]. by rewrite Qcplus_0_l.
Qed.

(** Every point of the trajectory drawn from a bucket is at least the total
    less everything that was contributed, when nothing negative was. *)
Lemma actual_burndown_floor field_name items b s e T x :
  calculate_by_date strptime float_of_str items field_name = Ok b →
  Forall (λ c, (0 ≤ c.2)%Qc)
         (omap (spec_contribution strptime float_of_str field_name) items) →
  x ∈ actual_burndown (generate_burndown_chart b s e T) →
  (T - sumQ (snd <$> omap (spec_contribution strptime float_of_str field_name) items)
   ≤ x)%Qc.
Proof.
  intros Hb Hcs Hx. apply list_elem_of_lookup in Hx as [i Hi].
  assert (i < days_enumerated s e) as Hlt.
  { apply lookup_lt_Some in Hi. simpl in Hi.
    rewrite burn_down_length, length_fmap, length_seqZ in Hi. exact Hi. }
  simpl in Hi. rewrite burn_down_closed in Hi
    by (by rewrite length_fmap, length_seqZ).
  assert (x = T - sumQ (completed_on b <$>
                take (S i) (date_range (generate_burndown_chart b s e T))))%Qc
    as -> by (simpl; congruence).
  apply Qcplus_le_mono_l. apply Qcopp_le_compat.
  rewrite (list_fmap_ext (completed_on b)
             (λ t, sumQ (amounts_on (dt_date t)
                (omap (spec_contribution strptime float_of_str field_name) items)))
             (take (S i) (date_range (generate_burndown_chart b s e T))))
    by (intros; by eapply completed_on_amounts).
  apply amounts_over_days; [|done].
  rewrite fmap_take. apply take_NoDup.
  rewrite date_range_dates. apply NoDup_seqZ.
Qed.

Lemma never_rises_le top l x : never_rises top l → x ∈ l → (x ≤ top)%Qc.
Proof.
  intros [H0 HS] [i Hi]%list_elem_of_lookup. revert x Hi.
  induction i as [|i IH]; intros x Hi; [by apply H0|].
  destruct (lookup_lt_is_Some_2 l i) as [y Hy];
    [apply lookup_lt_Some in Hi; lia|].
  eapply Qcle_trans; [by eapply HS|by apply IH].
Qed.

Lemma count_contributions_sum items :
  (sumQ (snd <$> omap (spec_contribution strptime float_of_str None) items)
   ≤ of_Z (Z.of_nat (length items)))%Qc.
Proof.
  induction items as [|item items IH]; [done|].
  replace (Z.of_nat (length (item :: items)))
    with (1 + Z.of_nat (length items))%Z by (simpl; lia).
  rewrite of_Z_add. change (of_Z 1) with 1%Qc. simpl omap.
  destruct (spec_contribution strptime float_of_str None item) as [[d q]|] eqn:E.
  - rewrite (contribution_count _ _ _ _ _ E). cbn [fmap list_fmap snd].
    change (list_fmap ?A ?B ?h ?l) with (h <$> l). rewrite sumQ_cons.
    by apply Qcplus_le_mono_l.
  - rewrite <- (Qcplus_0_l (sumQ _)). by apply Qcplus_le_compat.
Qed.

Lemma count_burndown_between (items : list pitem) (b : gmap Z Qc)
    (start_date end_date : datetime) (x : Qc) :
  calculate_by_date strptime float_of_str items None = Ok b →
  x ∈ actual_burndown
        (generate_burndown_chart b start_date end_date
           (of_Z (Z.of_nat (length items)))) →
  (0 ≤ x ≤ of_Z (Z.of_nat (length items)))%Qc.
Proof.
  intros Hb Hx.
  pose proof (contributions_positive strptime float_of_str None items) as Hpos.
  split.
  - eapply Qcle_trans; [|eapply actual_burndown_floor; [exact Hb| |exact Hx]].
    + pose proof (count_contributions_sum items) as Hsum.
      apply (Qcplus_le_mono_r _ _
               (sumQ (snd <$> omap (spec_contribution strptime float_of_str None) items))).
      rewrite Qcplus_0_l.
      assert (∀ a c : Qc, a - c + c = a)%Qc as -> by (intros; ring). done.
    + eapply Forall_impl; [by apply Hpos|]. intros c. apply Qclt_le_weak.
  - eapply never_rises_le; [|exact Hx].
    apply burn_down_monotone. intros d v Hv. apply Qclt_le_weak.
    by apply (bucket_values_positive strptime float_of_str None items b) with d.
Qed.

(** X21. The first pass of [main]: drawn from the count bucket of a
    sequence and from its length as the total, the actual trajectory stays
    between 0 and the total, over any range. *)
Theorem count_burndown_bounds (items : list pitem) (b : gmap Z Qc)
    (start_date end_date : datetime) (x : Qc) :
  calculate_by_date strptime float_of_str items None = Ok b →
  x ∈ actual_burndown
        (generate_burndown_chart b start_date end_date
           (of_Z (Z.of_nat (length items)))) →
  (0 ≤ x ≤ of_Z (Z.of_nat (length items)))%Qc.
Proof. apply count_burndown_between. Qed.

(** The estimates [total_estimate] adds up, one per item that has one. *)
Lemma total_estimate_from items acc T :
  for_each (λ total item,
              if bool_decide (is_Some (fields item !! KStr "Estimate")) then
                v ← py_float float_of_str
                       (default (JNum 0) (fields item !! KStr "Estimate"));
                Ok (total + v)%Qc
              else Ok total) acc items = Ok T →
  T = (acc + sumQ (omap (λ item, fields item !! KStr "Estimate"
                                 ≫= numeric float_of_str) items))%Qc.
Proof.
  revert acc T. induction items as [|item items IH]; intros acc T; simpl.
  - intros H. assert (T = acc) as -> by congruence.
    change (acc = acc + 0)%Qc. ring.
  - intros (acc' & H1 & H2)%bind_Ok. apply IH in H2 as ->.
    destruct (fields item !! KStr "Estimate") as [v|]; simpl in *.
    + unfold numeric.
      destruct (py_float float_of_str v) as [q|]; simpl in H1; [|done].
      assert (acc' = acc + q)%Qc as -> by congruence. rewrite sumQ_cons.
      symmetry. apply Qcplus_assoc.
    + assert (acc' = acc) as -> by congruence. done.
Qed.

Lemma estimate_contributions_sum items :
  (∀ item v, item ∈ items → fields item !! KStr "Estimate" = Some v →
     ∃ q, v = JNum q ∧ (0 ≤ q)%Qc) →
  (sumQ (snd <$> omap (spec_contribution strptime float_of_str (Some "Estimate")) items)
   ≤ sumQ (omap (λ item, fields item !! KStr "Estimate"
                         ≫= numeric float_of_str) items))%Qc.
Proof.
  induction items as [|item items IH]; intros Hv; [done|].
  assert (IH' := IH (λ i v Hi, Hv i v (list_elem_of_further _ _ _ Hi))).
  simpl omap.
  destruct (spec_contribution strptime float_of_str (Some "Estimate") item)
    as [[d q]|] eqn:E.
  - destruct (contribution_value _ _ _ _ _ _ E) as (v & Hf & _ & Hq).
    rewrite Hf. simpl. rewrite Hq. cbn [fmap list_fmap snd].
    change (list_fmap ?A ?B ?h ?l) with (h <$> l). rewrite !sumQ_cons.
    by apply Qcplus_le_mono_l.
  - destruct (fields item !! KStr "Estimate") as [v|] eqn:Hf; simpl; [|done].
    destruct (Hv item v (list_elem_of_here _ _) Hf) as (q & -> & Hq).
    unfold numeric. simpl. rewrite sumQ_cons.
    rewrite <- (Qcplus_0_l (sumQ (snd <$> _))). by apply Qcplus_le_compat.
Qed.

(** X22. The second pass of [main]: when every stored Estimate is a whole
    number that is not negative and their total stays within 2^53 (so that
    every sum and difference is exact in binary64 too), the actual
    trajectory drawn from the Estimate bucket and from [total_estimate] as
    the total stays between 0 and the total and never rises, over any
    range. *)
Theorem estimate_burndown_bounds (items : list pitem) (b : gmap Z Qc)
    (total : Qc) (start_date end_date : datetime) :
  (∀ item v, item ∈ items → fields item !! KStr "Estimate" = Some v →
     ∃ z : Z, v = JNum (of_Z z) ∧ (0 ≤ z)%Z) →
  total_estimate float_of_str items = Ok total →
  (total ≤ of_Z (2 ^ 53))%Qc →
  calculate_by_date strptime float_of_str items (Some "Estimate") = Ok b →
  let actual :=
    actual_burndown (generate_burndown_chart b start_date end_date total) in
  never_rises total actual ∧ ∀ x, x ∈ actual → (0 ≤ x ≤ total)%Qc.
Proof.
  intros Hwhole HT _ Hb actual.
  assert (Hv : ∀ item v, item ∈ items → fields item !! KStr "Estimate" = Some v →
     ∃ q, v = JNum q ∧ (0 ≤ q)%Qc).
  { intros item v Hi Hf. destruct (Hwhole item v Hi Hf) as (z & -> & Hz).
    exists (of_Z z). split; [done|]. by apply (of_Z_le 0 z). }
  assert (Hv' : ∀ item f v, item ∈ items → Some "Estimate" = Some f →
     fields item !! KStr f = Some v → ∃ q, v = JNum q ∧ (0 ≤ q)%Qc).
  { intros item f v Hi [= <-]. by apply Hv. }
  assert (Hrise : never_rises total actual).
  { apply burn_down_monotone. intros d v Hd. apply Qclt_le_weak.
    by apply (bucket_values_positive strptime float_of_str _ items b Hv' Hb) with d. }
  split; [done|]. intros x Hx. split; [|by eapply never_rises_le].
  eapply Qcle_trans; [|eapply actual_burndown_floor; [exact Hb| |exact Hx]].
  - apply total_estimate_from in HT. rewrite Qcplus_0_l in HT. subst total.
    pose proof (estimate_contributions_sum items Hv) as Hsum.
    apply (Qcplus_le_mono_r _ _
      (sumQ (snd <$> omap (spec_contribution strptime float_of_str (Some "Estimate")) items))).
    rewrite Qcplus_0_l.
    assert (∀ a c : Qc, a - c + c = a)%Qc as -> by (intros; ring). done.
  - eapply Forall_impl;
      [by apply (contributions_positive strptime float_of_str _ items Hv')|].
    intros c. apply Qclt_le_weak.
Qed.

Lemma total_estimate_Raise pre item post v t e :
  total_estimate float_of_str pre = Ok t →
  fields item !! KStr "Estimate" = Some v →
  py_float float_of_str v = Raise e →
  total_estimate float_of_str (pre ++ item :: post) = Raise e.
Proof.
  intros Hpre Hf Hv. apply (for_each_Raise _ _ _ _ _ _ _ Hpre).
  rewrite Hf. simpl. by rewrite Hv.
Qed.

(** X23. The two passes do not agree on an Estimate that is stored as null
    (an entry with metadata and neither text nor number): the aggregation
    leaves the bucket as it is for such an item, whereas the total raises
    a TypeError on it. *)
Theorem total_estimate_null (pre post : list pitem) (item : pitem) (t : Qc)
    (b : gmap Z Qc) :
  total_estimate float_of_str pre = Ok t →
  fields item !! KStr "Estimate" = Some JNull →
  total_estimate float_of_str (pre ++ item :: post) = Raise TypeError ∧
  tally strptime float_of_str (Some "Estimate") b item = Ok b.
Proof.
  intros Hpre Hf. split.
  - by apply (total_estimate_Raise pre item post JNull t TypeError Hpre Hf).
  - apply tally_not_counted. unfold counted, item_value. by rewrite Hf.
Qed.

Lemma main_chart_span b T :
  let ch := generate_burndown_chart b START_DATE END_DATE T in
  dt_date <$> date_range ch = seqZ (ymd 2025 1 12) 14 ∧
  length (ideal_burndown ch) = 14 ∧ length (actual_burndown ch) = 14.
Proof.
  intros ch. unfold ch. rewrite date_range_dates. split_and!.
  - done.
  - unfold generate_burndown_chart. cbn [ideal_burndown].
    by rewrite !length_fmap, !length_seqZ.
  - unfold generate_burndown_chart. cbn [actual_burndown].
    by rewrite burn_down_length, length_fmap, length_seqZ.
Qed.

(** X24. Whatever is fetched, every chart [main] renders spans the
    fourteen days from 2025-01-12 to 2025-01-25, with fourteen points on
    each trajectory. *)
Theorem main_charts_span (org project_title : string) (replies : list reply)
    (r : rendering) :
  r ∈ rendered (main strptime float_of_str org project_title replies) →
  dt_date <$> date_range (r_chart r) = seqZ (ymd 2025 1 12) 14 ∧
  length (ideal_burndown (r_chart r)) = 14 ∧
  length (actual_burndown (r_chart r)) = 14.
Proof.
  unfold main.
  destruct (outcome _) as [[items|e]|]; simpl; [|by intros ?%elem_of_nil..].
  destruct (process_items items "Sprint 4") as [processed|e]; simpl;
    [|by intros ?%elem_of_nil].
  destruct (calculate_by_date _ _ processed None) as [b1|e]; simpl;
    [|by intros ?%elem_of_nil].
  destruct (total_estimate _ processed) as [t|e]; simpl.
  - destruct (calculate_by_date _ _ processed (Some "Estimate")) as [b2|e]; simpl.
    + intros [->|[->|[]%elem_of_nil]%elem_of_cons]%elem_of_cons;
        apply main_chart_span.
    + intros [->|[]%elem_of_nil]%elem_of_cons. apply main_chart_span.
  - intros [->|[]%elem_of_nil]%elem_of_cons. apply main_chart_span.
Qed.

(** X25. The chart [main] renders first is the task chart: its total is
    the number of items fetched, and its actual trajectory never rises and
    stays between 0 and that number. *)
Theorem main_tasks_chart (org project_title : string) (replies : list reply)
    (tasks : rendering) (later : list rendering) :
  rendered (main strptime float_of_str org project_title replies) = tasks :: later →
  ∃ items,
    outcome (fetch_project_items org project_title replies) = Some (Ok items) ∧
    r_filename tasks = "burndown_tasks.png" ∧
    let total := of_Z (Z.of_nat (length items)) in
    ideal_burndown (r_chart tasks) !! 0 = Some total ∧
    never_rises total (actual_burndown (r_chart tasks)) ∧
    ∀ x, x ∈ actual_burndown (r_chart tasks) → (0 ≤ x ≤ total)%Qc.
Proof.
  unfold main.
  destruct (outcome _) as [[items|e]|]; simpl; try done.
  destruct (process_items items "Sprint 4") as [processed|e] eqn:Hp; simpl;
    [|done].
  apply process_items_from in Hp as (rs & -> & HF). simpl.
  apply Forall2_length in HF. rewrite <- HF.
  destruct (calculate_by_date _ _ rs None) as [b1|e] eqn:Hb; simpl; [|done].
  intros Hr. assert (tasks = Rendering
      (generate_burndown_chart b1 START_DATE END_DATE (of_Z (Z.of_nat (length items))))
      "Remaining Tasks" "burndown_tasks.png" "blue") as ->.
  { destruct (total_estimate _ rs); simpl in Hr;
      [destruct (calculate_by_date _ _ rs (Some "Estimate")); simpl in Hr|];
      congruence. }
  exists items. split_and!; try done.
  - cbn [r_chart].
    change (ideal_burndown (generate_burndown_chart b1 START_DATE END_DATE
              (of_Z (Z.of_nat (length items)))) !! 0)
      with (Some (of_Z (Z.of_nat (length items))
                  - of_Z (Z.of_nat (length items)) / of_Z 14 * of_Z 0)%Qc).
    f_equal. change (of_Z 0) with 0%Qc. ring.
  - apply burn_down_monotone. intros d v Hv. apply Qclt_le_weak.
    by apply (bucket_values_positive strptime float_of_str None rs b1) with d.
  - intros x Hx. rewrite HF in *.
    by apply (count_burndown_between rs b1 START_DATE END_DATE).
Qed.

Lemma total_estimate_null_somewhere items item acc :
  item ∈ items → fields item !! KStr "Estimate" = Some JNull →
  ∃ e, for_each (λ total item,
              if bool_decide (is_Some (fields item !! KStr "Estimate")) then
                v ← py_float float_of_str
                       (default (JNum 0) (fields item !! KStr "Estimate"));
                Ok (total + v)%Qc
              else Ok total) acc items = Raise e.
Proof.
  intros Hin Hf. revert acc.
  induction items as [|x items IH]; intros acc; [by apply elem_of_nil in Hin|].
  simpl. apply elem_of_cons in Hin as [<-|Hin].
  - rewrite Hf. simpl. eauto.
  - destruct (if bool_decide _ then _ else _) as [acc'|e]; simpl;
      [by apply IH|eauto].
Qed.

(** X26. [main] can fail after it has rendered: when the items are fetched,
    processed and counted, and some record holds a null Estimate, the run
    ends with an exception, and the task chart, and only it, has been
    rendered by then. *)
Theorem main_fails_after_tasks_chart (org project_title : string)
    (replies : list reply) (items : list json) (processed : list pitem)
    (b : gmap Z Qc) (item : pitem) :
  outcome (fetch_project_items org project_title replies) = Some (Ok items) →
  process_items items "Sprint 4" = Ok processed →
  calculate_by_date strptime float_of_str processed None = Ok b →
  item ∈ processed → fields item !! KStr "Estimate" = Some JNull →
  ∃ e, main strptime float_of_str org project_title replies
       = MainRun [Rendering (generate_burndown_chart b START_DATE END_DATE
                               (of_Z (Z.of_nat (length processed))))
                            "Remaining Tasks" "burndown_tasks.png" "blue"]
                 (Some (Raise e)).
Proof.
  intros Hf Hp Hb Hin Hnull. unfold main. rewrite Hf, Hp, Hb.
  destruct (total_estimate_null_somewhere processed item 0%Qc Hin Hnull) as [e He].
  exists e. unfold total_estimate. by rewrite He.
Qed.

(** X27. For a project without items [main] renders both charts, and both
    trajectories of both charts are 0 on each of the fourteen days. *)
Theorem main_empty_project (org project_title : string) (replies : list reply) :
  outcome (fetch_project_items org project_title replies) = Some (Ok []) →
  let run := main strptime float_of_str org project_title replies in
  ending run = Some (Ok ()) ∧
  (r_filename <$> rendered run) = ["burndown_tasks.png"; "burndown_estimates.png"] ∧
  ∀ r, r ∈ rendered run →
    ideal_burndown (r_chart r) = replicate 14 0%Qc ∧
    actual_burndown (r_chart r) = replicate 14 0%Qc.
Proof.
  intros Hf run. unfold run, main. rewrite Hf. simpl. split_and!; [done..|].
  intros r [->|[->|[]%elem_of_nil]%elem_of_cons]%elem_of_cons;
    split; vm_compute; reflexivity.
Qed.

Lemma process_item_state item r :
  process_item item = Ok r → path ["content"; "state"] item = None →
  state r = JStr "Unknown".
Proof.
  unfold process_item.
  intros (fv & _ & H)%bind_Ok.
  apply bind_Ok in H as (nodes & _ & H).
  apply bind_Ok in H as (es & _ & H).
  apply bind_Ok in H as (fs & _ & H).
  apply bind_Ok in H as (c & Hc & H).
  apply bind_Ok in H as (t & _ & H).
  apply bind_Ok in H as (s & Hs & H).
  apply bind_Ok in H as (ca & _ & H). injection H as <-. simpl.
  destruct item as [| | | | |d]; try done. simpl in Hc. injection Hc as <-.
  simpl. destruct (dict_lookup "content" d) as [x|]; simpl in *.
  - destruct x as [| | | | |cd]; try done. simpl in *.
    destruct (dict_lookup "state" cd); [done|]. by injection Hs as <-.
  - by injection Hs as <-.
Qed.

(** X28. An item without content, or whose content has no state, is
    recorded with the state ["Unknown"] and so never adds to a bucket,
    with or without a field name. *)
Theorem process_item_no_state (item : json) (r : pitem) :
  process_item item = Ok r → path ["content"; "state"] item = None →
  state r = JStr "Unknown" ∧
  ∀ field_name b, tally strptime float_of_str field_name b r = Ok b.
Proof.
  intros Hr Hp. pose proof (process_item_state item r Hr Hp) as Hs.
  split; [done|]. intros field_name b. apply tally_not_counted.
  unfold counted. rewrite Hs. simpl. by rewrite andb_false_r.
Qed.
End MainProps.

(** * The further properties at written-out inputs *)

Lemma fetch_project_items_failing_page_witness :
  fetch_project_items "PaletteProject" "Palette"
    [Body page_one; BadStatus; Body page_two]
  = Run (Some (Raise HTTPError))
        [Request "PaletteProject" JNull;
         Request "PaletteProject" (JStr "Y3Vyc29yOjI=")]
        [Body page_two].
Proof.
  refine (fetch_project_items_failing_page "PaletteProject" "Palette"
            [Page page_one [sample_item; bare_item] (JStr "Y3Vyc29yOjI=")]
            BadStatus HTTPError [Body page_two] _ eq_refl).
  apply List.Forall_cons; [exact page_one_is_page|apply List.Forall_nil].
Defined.

Lemma fetch_project_items_keeps_asking_witness :
  fetch_project_items "PaletteProject" "Palette" [Body page_one]
  = Run None
        [Request "PaletteProject" JNull;
         Request "PaletteProject" (JStr "Y3Vyc29yOjI=")]
        [].
Proof.
  refine (fetch_project_items_keeps_asking "PaletteProject" "Palette"
            [Page page_one [sample_item; bare_item] (JStr "Y3Vyc29yOjI=")] _).
  apply List.Forall_cons; [exact page_one_is_page|apply List.Forall_nil].
Defined.

Lemma fetch_loop_not_object_witness :
  is_dict (JList [JStr "errors"]) = false ∧
  ∃ e, fetch_loop "PaletteProject" "Palette" [Body (JList [JStr "errors"])] JNull []
       = Run (Some (Raise e)) [Request "PaletteProject" JNull] [] ∧
       (e = TypeError ∨ e = SchemaError).
Proof.
  split; [reflexivity|].
  exact (fetch_loop_not_object "PaletteProject" "Palette" (JList [JStr "errors"])
           [] JNull [] eq_refl).
Defined.

Lemma fetch_loop_untitled_project_witness :
  fetch_loop "PaletteProject" "Palette"
    [Body (response [JDict []; project_node "Palette" [sample_item] false JNull])]
    JNull []
  = Run (Some (Raise (KeyError "title"))) [Request "PaletteProject" JNull] [].
Proof.
  exact (fetch_loop_untitled_project "PaletteProject" "Palette"
           (response_fields [JDict []; project_node "Palette" [sample_item] false JNull])
           [] [project_node "Palette" [sample_item] false JNull] [] [] JNull []
           eq_refl eq_refl (List.Forall_nil _) eq_refl).
Defined.

Lemma process_items_bad_content_witness :
  process_items [sample_item; JDict [("id", JStr "PVTI_3"); ("content", JNull)]; bare_item]
    "Sprint 4"
  = Raise AttributeError.
Proof.
  refine (process_items_bad_content [sample_item] [bare_item]
            [("id", JStr "PVTI_3"); ("content", JNull)] JNull "Sprint 4"
            _ eq_refl eq_refl eq_refl).
  apply List.Forall_cons; [reflexivity|apply List.Forall_nil].
Defined.

Lemma process_item_fields_from_entries_witness :
  ∃ r, process_item sample_item = Ok r ∧
       is_Some (fields r !! KStr "Estimate") ∧
       ¬ is_Some (fields r !! KStr "Priority").
Proof.
  eexists. split; [reflexivity|].
  split.
  - refine (proj2 (proj1 (process_item_fields_from_entries sample_item _
             [JDict area_entry; JDict []; JDict estimate_entry; JDict orphan_entry]
             (KStr "Estimate") eq_refl eq_refl)) _).
    exists (JDict estimate_entry). split; [|reflexivity].
    apply list_elem_of_further, list_elem_of_further, list_elem_of_here.
  - intros H.
    apply (proj1 (proj1 (process_item_fields_from_entries sample_item _
             [JDict area_entry; JDict []; JDict estimate_entry; JDict orphan_entry]
             (KStr "Priority") eq_refl eq_refl))) in H.
    destruct H as (e & Hin & Hk).
    rewrite !elem_of_cons, elem_of_nil in Hin.
    destruct Hin as [->|[->|[->|[->|[]]]]]; discriminate Hk.
Defined.

Lemma process_item_skipped_entries_witness :
  ∃ r, process_item sample_item = Ok r ∧
       for_each process_field ∅ [JDict area_entry; JDict estimate_entry]
       = Ok (fields r).
Proof.
  eexists. split; [reflexivity|].
  exact (process_item_skipped_entries sample_item _
           [JDict area_entry; JDict []; JDict estimate_entry; JDict orphan_entry]
           eq_refl eq_refl).
Defined.

Lemma count_by_date_app_witness :
  ∃ b1 b2,
    calculate_by_date strptime_strict float_of_digits [done_3; done_0] None = Ok b1 ∧
    calculate_by_date strptime_strict float_of_digits [open_5; done_plain] None = Ok b2 ∧
    calculate_by_date strptime_strict float_of_digits sample_items None
    = Ok (bucket_sum b1 b2).
Proof.
  eexists. eexists. split; [reflexivity|]. split; [reflexivity|].
  exact (count_by_date_app strptime_strict float_of_digits
           [done_3; done_0] [open_5; done_plain] _ _ eq_refl eq_refl).
Defined.

Lemma count_by_date_reorder_witness :
  sample_items ≡ₚ reverse sample_items ∧
  ∃ b, calculate_by_date strptime_strict float_of_digits sample_items None = Ok b ∧
       calculate_by_date strptime_strict float_of_digits (reverse sample_items) None
       = Ok b.
Proof.
  assert (Hp : sample_items ≡ₚ reverse sample_items)
    by (symmetry; apply reverse_Permutation).
  split; [exact Hp|]. eexists. split; [reflexivity|].
  exact (count_by_date_reorder strptime_strict float_of_digits
           sample_items (reverse sample_items) _ Hp eq_refl).
Defined.

Lemma calculate_by_date_counts_witness :
  ∃ b, calculate_by_date strptime_strict float_of_digits sample_items None = Ok b ∧
       b !! ymd 2025 1 13 = Some (of_Z 2) ∧ b !! ymd 2025 1 12 = None.
Proof.
  eexists. split; [reflexivity|]. split.
  - exact (calculate_by_date_counts strptime_strict float_of_digits
             sample_items _ (ymd 2025 1 13) eq_refl).
  - exact (calculate_by_date_counts strptime_strict float_of_digits
             sample_items _ (ymd 2025 1 12) eq_refl).
Defined.

Lemma sample_estimates_nonneg item v :
  item ∈ sample_items → fields item !! KStr "Estimate" = Some v →
  ∃ q, v = JNum q ∧ (0 ≤ q)%Qc.
Proof.
  unfold sample_items. rewrite !elem_of_cons, elem_of_nil.
  intros [->|[->|[->|[->|[]]]]] Hv; vm_compute in Hv;
    try discriminate Hv; injection Hv as <-; eexists; (split; [reflexivity|done]).
Defined.

Lemma calculate_by_date_positive_witness :
  ∃ b, calculate_by_date strptime_strict float_of_digits sample_items
         (Some "Estimate") = Ok b ∧
       ∀ d v, b !! d = Some v → (0 < v)%Qc.
Proof.
  eexists. split; [reflexivity|].
  refine (proj1 (calculate_by_date_positive strptime_strict float_of_digits
                   sample_items (Some "Estimate") _ _ eq_refl)).
  intros item f v Hin [= <-]. by apply sample_estimates_nonneg.
Defined.

Lemma calculate_by_date_text_value_witness :
  calculate_by_date strptime_strict float_of_digits [done_3; done_text; open_5]
    (Some "Estimate")
  = Raise (ValueError NotAFloat).
Proof.
  exact (calculate_by_date_text_value strptime_strict float_of_digits
           [done_3] [open_5] done_text (Some "Estimate") _
           "2025-01-15T08:00:00Z" "large" eq_refl eq_refl eq_refl eq_refl eq_refl).
Defined.

Lemma generate_burndown_chart_reversed_witness :
  (days_between (jan_2025 12) (jan_2025 14) < 0)%Z ∧
  generate_burndown_chart scenario_bucket (jan_2025 14) (jan_2025 12) (of_Z 5)
  = Chart [] [] [].
Proof.
  assert (H : (days_between (jan_2025 12) (jan_2025 14) < 0)%Z) by reflexivity.
  split; [exact H|].
  exact (generate_burndown_chart_reversed scenario_bucket (jan_2025 14)
           (jan_2025 12) (of_Z 5) H).
Defined.

Lemma days_enumerated_time_of_day_witness :
  days_enumerated noon_jan_12 (jan_2025 14) = 2.
Proof.
  refine (proj1 (days_enumerated_time_of_day noon_jan_12 (jan_2025 14) _ _)).
  - split; [by vm_compute|reflexivity].
  - split; [by vm_compute|reflexivity].
Defined.

Lemma count_burndown_bounds_witness :
  ∃ b, calculate_by_date strptime_strict float_of_digits sample_items None = Ok b ∧
       actual_burndown (generate_burndown_chart b (jan_2025 12) (jan_2025 14) (of_Z 4))
       = [of_Z 4; of_Z 2; of_Z 1] ∧
       (0 ≤ of_Z 1 ≤ of_Z 4)%Qc.
Proof.
  eexists. split; [reflexivity|]. split; [by vm_compute|].
  refine (count_burndown_bounds strptime_strict float_of_digits sample_items _
            (jan_2025 12) (jan_2025 14) (of_Z 1) eq_refl _).
  apply list_elem_of_further, list_elem_of_further, list_elem_of_here.
Defined.

Lemma sample_estimates_whole item v :
  item ∈ sample_items → fields item !! KStr "Estimate" = Some v →
  ∃ z : Z, v = JNum (of_Z z) ∧ (0 ≤ z)%Z.
Proof.
  unfold sample_items. rewrite !elem_of_cons, elem_of_nil.
  intros [->|[->|[->|[->|[]]]]] Hv; vm_compute in Hv; try discriminate Hv;
    injection Hv as <-;
    [exists 3%Z|exists 0%Z|exists 5%Z]; (split; [reflexivity|lia]).
Defined.

Lemma estimate_burndown_bounds_witness :
  ∃ b, total_estimate float_of_digits sample_items = Ok (of_Z 8) ∧
       (of_Z 8 ≤ of_Z (2 ^ 53))%Qc ∧
       calculate_by_date strptime_strict float_of_digits sample_items
         (Some "Estimate") = Ok b ∧
       never_rises (of_Z 8)
         (actual_burndown
            (generate_burndown_chart b (jan_2025 12) (jan_2025 14) (of_Z 8))).
Proof.
  assert (Hle : (of_Z 8 ≤ of_Z (2 ^ 53))%Qc) by (by vm_compute).
  eexists. split; [by vm_compute|]. split; [exact Hle|]. split; [reflexivity|].
  refine (proj1 (estimate_burndown_bounds strptime_strict float_of_digits
                   sample_items _ (of_Z 8) (jan_2025 12) (jan_2025 14)
                   sample_estimates_whole _ Hle eq_refl)).
  by vm_compute.
Defined.

Lemma total_estimate_null_witness :
  total_estimate float_of_digits [done_3; open_null; open_5] = Raise TypeError ∧
  calculate_by_date strptime_strict float_of_digits [open_null] (Some "Estimate")
  = Ok ∅.
Proof.
  destruct (total_estimate_null strptime_strict float_of_digits [done_3] [open_5]
              open_null (of_Z 3) ∅) as [Htotal Htally]; [by vm_compute|reflexivity|].
  split; [exact Htotal|]. unfold calculate_by_date. simpl for_each.
  by rewrite Htally.
Defined.

Lemma main_charts_span_witness :
  ∃ r later,
    rendered (main strptime_strict float_of_digits "PaletteProject" "Palette"
                [Body page_two]) = r :: later ∧
    length (actual_burndown (r_chart r)) = 14.
Proof.
  eexists. eexists. split; [reflexivity|].
  refine (proj2 (proj2 (main_charts_span strptime_strict float_of_digits
                          "PaletteProject" "Palette" [Body page_two] _ _))).
  apply list_elem_of_here.
Defined.

Lemma main_tasks_chart_witness :
  ∃ tasks later,
    rendered (main strptime_strict float_of_digits "PaletteProject" "Palette"
                [Body page_one; Body page_two]) = tasks :: later ∧
    ideal_burndown (r_chart tasks) !! 0 = Some (of_Z 3).
Proof.
  eexists. eexists. split; [reflexivity|].
  destruct (main_tasks_chart strptime_strict float_of_digits
              "PaletteProject" "Palette" [Body page_one; Body page_two] _ _ eq_refl)
    as (items & Hitems & _ & Hideal & _).
  injection Hitems as <-. exact Hideal.
Defined.

Lemma main_fails_after_tasks_chart_witness :
  ∃ tasks,
    main strptime_strict float_of_digits "PaletteProject" "Palette"
      [Body null_estimate_page]
    = MainRun [tasks] (Some (Raise TypeError)) ∧
    r_filename tasks = "burndown_tasks.png".
Proof.
  destruct (main_fails_after_tasks_chart strptime_strict float_of_digits
              "PaletteProject" "Palette" [Body null_estimate_page]
              [sample_item; null_estimate_item] [sample_record; open_null]
              {[ymd 2025 1 13 := of_Z 1]} open_null)
    as [e He];
    [reflexivity|reflexivity|reflexivity|
     apply list_elem_of_further, list_elem_of_here|reflexivity|].
  assert (ending (main strptime_strict float_of_digits "PaletteProject" "Palette"
                    [Body null_estimate_page]) = Some (Raise TypeError))
    as Hend by reflexivity.
  rewrite He in Hend. injection Hend as ->.
  eexists. split; [exact He|reflexivity].
Defined.

Lemma main_empty_project_witness :
  ending (main strptime_strict float_of_digits "PaletteProject" "Palette"
            [Body empty_page]) = Some (Ok ()).
Proof.
  exact (proj1 (main_empty_project strptime_strict float_of_digits
                  "PaletteProject" "Palette" [Body empty_page] eq_refl)).
Defined.

Lemma process_item_no_state_witness :
  process_item bare_item = Ok (PItem (JStr "No Title") (JStr "Unknown") JNull ∅) ∧
  calculate_by_date strptime_strict float_of_digits
    [PItem (JStr "No Title") (JStr "Unknown") JNull ∅] None = Ok ∅.
Proof.
  split; [reflexivity|].
  destruct (process_item_no_state strptime_strict float_of_digits bare_item
              (PItem (JStr "No Title") (JStr "Unknown") JNull ∅)
              eq_refl eq_refl) as [_ Ht].
  unfold calculate_by_date. cbn [for_each]. by rewrite (Ht None ∅).
Defined.
